(** * MayaCameraTools: viewing frustum, field of view and film-gate resolution

    A shallow embedding of [maya_camera_tools.py] and the properties of its
    frustum / resolution arithmetic.

    Conventions of the embedding.
    - A Python [float] is read as a real number ([R]): rounding, infinities
      and NaN are left out, every arithmetic operation is exact.  Bounds,
      signs, failures and the shape of the branches are stated on this
      reading.
    - What hangs on the rounding of a quotient (the pixel [int(...)]
      returns, the side of a [<] test) is stated on a second reading of the
      same functions, over binary64 floats, in the module [F64].
    - A Python [int] is an integer ([Z]); [float(n)] is [IZR n].
    - The only exception the arithmetic itself can raise is
      [ZeroDivisionError] (float division by zero); it is propagated through
      the [result] monad exactly where the source divides.
    - [cmds.camera(camera, query=True, <attr>=True)] is the projection
      [<attr> camera] of a record holding the attributes of the camera node;
      [cmds.getAttr] / [cmds.listConnections] on [defaultRenderGlobals] read a
      [RenderGlobals] record. *)

From Stdlib Require Import Reals Lra Lia ZArith QArith Bool String List.
From Stdlib Require Floats.
Import ListNotations.

Local Open Scope R_scope.

(** ** Exceptions and results *)

Inductive PyExn : Type :=
| ZeroDivisionError.

Inductive result (A : Type) : Type :=
| Ok (a : A)
| Raise (e : PyExn).

Arguments Ok {A} a.
Arguments Raise {A} e.

Definition bind {A B : Type} (m : result A) (k : A -> result B) : result B :=
  match m with
  | Ok a => k a
  | Raise e => Raise e
  end.

Notation "x <- m ;; k" := (bind m (fun x => k))
  (at level 61, m at next level, right associativity).
Notation "' p <- m ;; k" := (bind m (fun x => match x with p => k end))
  (at level 61, p pattern, m at next level, right associativity).

(** ** Python arithmetic *)

(** [a / b] on floats. *)
Definition py_div (a b : R) : result R :=
  if Req_dec_T b 0 then Raise ZeroDivisionError else Ok (a / b).

(** [a < b], [a > b], [a >= b] as the booleans Python branches on. *)
Definition py_lt (a b : R) : bool := if Rlt_dec a b then true else false.
Definition py_gt (a b : R) : bool := py_lt b a.
Definition py_ge (a b : R) : bool := if Rge_dec a b then true else false.

(** [int(x)]: truncation toward zero ([Int_part] is the floor). *)
Definition py_int (x : R) : Z :=
  if Rle_dec 0 x then Int_part x else (- Int_part (- x))%Z.

(** Truthiness of a value that is [None] or an [int]: [not v]. *)
Definition py_not (v : option Z) : bool :=
  match v with
  | None => true
  | Some n => (n =? 0)%Z
  end.

(** ** The scene: camera attributes and render globals *)

Record Camera : Type := {
  aspectRatio : R;
  horizontalFilmAperture : R;
  verticalFilmAperture : R;
  horizontalFilmOffset : R;
  verticalFilmOffset : R;
  filmFitOffset : R;
  focalLength : R;
  nearClipPlane : R;
  cameraScale : R;
  overscan : R;
  filmFit : string;
  horizontalFieldOfView : R
}.

(** A resolution node connected to [defaultRenderGlobals.resolution]. *)
Record ResolutionNode : Type := {
  width : Z;
  height : Z
}.

Record RenderGlobals : Type := {
  resolution : list ResolutionNode;
  ignoreFilmGate : bool
}.

Definition mm_to_inch : R := 0.03937007874.

(** ** compute_camera_viewing_frustum *)

(** The rectangle [(left, right, bottom, top)]. *)
Definition Frustum : Type := (R * R * R * R)%type.

(** Lines 29-56: [(scale_x, scale_y, translate_x, translate_y)] as the
    [film_fit] chain leaves them.  A [film_fit] none of the four tests
    matches leaves the initial values. *)
Definition film_fit_scaling (camera : Camera) (window_aspect : R)
  : result (R * R * R * R) :=
  let film_aspect := aspectRatio camera in
  let aperture_x := horizontalFilmAperture camera in
  let aperture_y := verticalFilmAperture camera in
  let film_fit_offset := filmFitOffset camera in
  let scale_x := 1 in
  let scale_y := 1 in
  let translate_x := 0 in
  let translate_y := 0 in
  let film_fit := filmFit camera in
  if (film_fit =? "fill")%string then
    if py_lt window_aspect film_aspect then
      scale_x <- py_div window_aspect film_aspect ;;
      Ok (scale_x, scale_y, translate_x, translate_y)
    else
      scale_y <- py_div film_aspect window_aspect ;;
      Ok (scale_x, scale_y, translate_x, translate_y)
  else if (film_fit =? "horizontal")%string then
    scale_y <- py_div film_aspect window_aspect ;;
    if py_gt scale_y 1 then
      let translate_y :=
        film_fit_offset * (aperture_y - (aperture_y * scale_y)) / 2 in
      Ok (scale_x, scale_y, translate_x, translate_y)
    else Ok (scale_x, scale_y, translate_x, translate_y)
  else if (film_fit =? "vertical")%string then
    scale_x <- py_div window_aspect film_aspect ;;
    if py_gt scale_x 1 then
      let translate_x :=
        film_fit_offset * (aperture_x - (aperture_x * scale_x)) / 2 in
      Ok (scale_x, scale_y, translate_x, translate_y)
    else Ok (scale_x, scale_y, translate_x, translate_y)
  else if (film_fit =? "overscan")%string then
    if py_lt window_aspect film_aspect then
      scale_y <- py_div film_aspect window_aspect ;;
      Ok (scale_x, scale_y, translate_x, translate_y)
    else
      scale_x <- py_div window_aspect film_aspect ;;
      Ok (scale_x, scale_y, translate_x, translate_y)
  else Ok (scale_x, scale_y, translate_x, translate_y).

Definition compute_camera_viewing_frustum
  (camera : Camera) (window_aspect : R) (apply_overscan : bool)
  : result Frustum :=
  let aperture_x := horizontalFilmAperture camera in
  let aperture_y := verticalFilmAperture camera in
  let offset_x := horizontalFilmOffset camera in
  let offset_y := verticalFilmOffset camera in
  let focal_len_inch := focalLength camera * mm_to_inch in
  focal_to_near <- py_div (nearClipPlane camera) focal_len_inch ;;
  let focal_to_near := focal_to_near * cameraScale camera in
  '(scale_x, scale_y, translate_x, translate_y) <-
    film_fit_scaling camera window_aspect ;;
  let '(scale_x, scale_y) :=
    if apply_overscan
    then (scale_x * overscan camera, scale_y * overscan camera)
    else (scale_x, scale_y) in
  let left := focal_to_near * (-0.5 * aperture_x * scale_x + offset_x + translate_x) in
  let right := focal_to_near * (0.5 * aperture_x * scale_x + offset_x + translate_x) in
  let bottom := focal_to_near * (-0.5 * aperture_y * scale_y + offset_y + translate_y) in
  let top := focal_to_near * (0.5 * aperture_y * scale_y + offset_y + translate_y) in
  Ok (left, right, bottom, top).

(** ** get_camera_port_field_of_view *)

(** [port_width] and [port_height] are passed through [float(...)], so the
    callers below hand over [IZR] of an [int] or a float as it is.  The
    frustum is bound to [f_left], [f_right], ... because [left] and [right]
    are constructors of [sumbool]. *)
Definition get_camera_port_field_of_view
  (camera : Camera) (port_width port_height : R) : result (R * R) :=
  window_aspect <- py_div port_width port_height ;;
  '(f_left, f_right, f_bottom, f_top) <-
    compute_camera_viewing_frustum camera window_aspect false ;;
  let near := nearClipPlane camera in
  h <- py_div ((f_right - f_left) * 0.5) near ;;
  let horizontal := atan h * 2 in
  v <- py_div ((f_top - f_bottom) * 0.5) near ;;
  let vertical := atan v * 2 in
  Ok (horizontal, vertical).

(** ** Render globals *)

Definition get_render_image_resolution (rg : RenderGlobals)
  : option Z * option Z :=
  match resolution rg with
  | [] => (None, None)
  | node :: _ => (Some (width node), Some (height node))
  end.

Definition will_render_ignore_film_gate (rg : RenderGlobals) : bool :=
  ignoreFilmGate rg.

(** Lines 124-127: the render resolution, or 320 x 240 when the width or the
    height is falsy ([None] or [0]). *)
Definition camera_start_resolution (res : option Z * option Z) : Z * Z :=
  let '(cam_width, cam_height) := res in
  if py_not cam_width || py_not cam_height then (320, 240)%Z
  else
    match cam_width, cam_height with
    | Some w, Some h => (w, h)
    | _, _ => (320, 240)%Z
    end.

(** ** get_camera_resolution_fov_ratio *)

(** The pair of statements the source repeats after every probe:
    [hfov, vfov = get_camera_port_field_of_view(camera, w, h)] followed by
    [fov_ratio = hfov / vfov]. *)
Definition probe_fov_ratio (camera : Camera) (w h : R) : result R :=
  '(hfov, vfov) <- get_camera_port_field_of_view camera w h ;;
  py_div hfov vfov.

(** [n / (a / b)], the shape of every [new_width] and [new_height]. *)
Definition div_by_ratio (n a b : R) : result R :=
  ratio <- py_div a b ;;
  py_div n ratio.

Definition get_camera_resolution_fov_ratio
  (rg : RenderGlobals) (camera : Camera) : result (Z * Z * R) :=
  let fov_ratio := 1 in
  let ignore_film_gate := will_render_ignore_film_gate rg in
  let '(cam_width, cam_height) :=
    camera_start_resolution (get_render_image_resolution rg) in
  let aperture_x := horizontalFilmAperture camera in
  let aperture_y := verticalFilmAperture camera in
  let film_fit := filmFit camera in
  if (film_fit =? "horizontal")%string then
    cam_height <-
      (if negb ignore_film_gate then
         new_height <- div_by_ratio (IZR cam_width) aperture_x aperture_y ;;
         if py_lt new_height (IZR cam_height)
         then Ok (py_int new_height)
         else Ok cam_height
       else Ok cam_height) ;;
    fov_ratio <- probe_fov_ratio camera (IZR cam_width) (IZR cam_height) ;;
    Ok (cam_width, cam_height, fov_ratio)
  else if (film_fit =? "vertical")%string then
    new_width <- div_by_ratio (IZR cam_height) aperture_y aperture_x ;;
    (* case 1: film-gate smaller than resolution, film-gate on *)
    if py_lt new_width (IZR cam_width) && negb ignore_film_gate then
      let cam_width := py_int new_width in
      let fov_ratio := 1 in
      Ok (cam_width, cam_height, fov_ratio)
    (* case 2: film-gate smaller than resolution, film-gate off *)
    else if py_lt new_width (IZR cam_width) && ignore_film_gate then
      fov_ratio <- probe_fov_ratio camera new_width (IZR cam_height) ;;
      Ok (cam_width, cam_height, fov_ratio)
    (* case 3: film-gate larger than resolution, film-gate on *)
    else if negb ignore_film_gate then
      fov_ratio <- probe_fov_ratio camera new_width (IZR cam_height) ;;
      Ok (cam_width, cam_height, fov_ratio)
    (* case 4: film-gate larger than resolution, film-gate off *)
    else if ignore_film_gate then
      fov_ratio <- probe_fov_ratio camera new_width (IZR cam_height) ;;
      Ok (cam_width, cam_height, fov_ratio)
    else Ok (cam_width, cam_height, fov_ratio)
  else if (film_fit =? "overscan")%string then
    new_height <- div_by_ratio (IZR cam_width) aperture_x aperture_y ;;
    new_width <- div_by_ratio (IZR cam_height) aperture_y aperture_x ;;
    if py_lt new_width (IZR cam_width) then
      if negb ignore_film_gate then
        let cam_width := py_int new_width in
        let fov_ratio := 1 in
        Ok (cam_width, cam_height, fov_ratio)
      else
        fov_ratio <- probe_fov_ratio camera new_width (IZR cam_height) ;;
        Ok (cam_width, cam_height, fov_ratio)
    else
      let cam_height :=
        if negb ignore_film_gate then py_int new_height else cam_height in
      fov_ratio <- probe_fov_ratio camera (IZR cam_width) (IZR cam_height) ;;
      Ok (cam_width, cam_height, fov_ratio)
  else if (film_fit =? "fill")%string then
    new_width <- div_by_ratio (IZR cam_height) aperture_y aperture_x ;;
    fov_ratio <-
      (if py_ge new_width (IZR cam_width)
       then probe_fov_ratio camera new_width (IZR cam_height)
       else probe_fov_ratio camera (IZR cam_width) (IZR cam_height)) ;;
    Ok (cam_width, cam_height, fov_ratio)
  else Ok (cam_width, cam_height, fov_ratio).

(** ** get_camera_field_of_view *)

Definition get_camera_field_of_view
  (rg : RenderGlobals) (camera : Camera) : result R :=
  '(cam_width, cam_height, fov_ratio) <-
    get_camera_resolution_fov_ratio rg camera ;;
  py_div (horizontalFieldOfView camera) fov_ratio.

(** ** is_point_clipped *)

(** [n / 2] on an [int] [n]: floor division under Python 2, true division
    under Python 3 (Maya ships either, and the module runs under both).  The
    result is kept as a rational, which holds both. *)
Inductive PyVersion : Type :=
| Python2
| Python3.

Definition int_div_2 (py : PyVersion) (n : Z) : Q :=
  match py with
  | Python2 => inject_Z (n / 2)
  | Python3 => n # 2
  end.

Definition Qlt_bool (a b : Q) : bool := negb (Qle_bool b a).

(** The point is a pair of rationals (pixel coordinates, [int] or [float]);
    the two resolutions are pairs of [int]. *)
Definition is_point_clipped (py : PyVersion) (x y : Q)
  (render_resolution camera_resolution : Z * Z) : bool :=
  let clipped := false in
  let clipped :=
    if negb (snd render_resolution =? snd camera_resolution)%Z then
      let new_height :=
        int_div_2 py (snd render_resolution - snd camera_resolution) in
      if Qlt_bool y new_height
         || Qle_bool (inject_Z (snd render_resolution) - new_height) y
      then true else clipped
    else clipped in
  let clipped :=
    if negb (fst render_resolution =? fst camera_resolution)%Z then
      let new_width :=
        int_div_2 py (fst render_resolution - fst camera_resolution) in
      if Qlt_bool x new_width
         || Qle_bool (inject_Z (fst render_resolution) - new_width) x
      then true else clipped
    else clipped in
  clipped.

(** ** The Fill branch as the specification words it

    The specification gives the probe width of the Fill branch as
    [cam_h * (aperture_y / aperture_x)].  This definition follows those
    words, for comparison with the branch of
    [get_camera_resolution_fov_ratio]. *)
Definition spec_fill_inverse_ratio
  (rg : RenderGlobals) (camera : Camera) : result (Z * Z * R) :=
  let '(cam_w, cam_h) :=
    camera_start_resolution (get_render_image_resolution rg) in
  inverse_ratio <-
    py_div (verticalFilmAperture camera) (horizontalFilmAperture camera) ;;
  let new_width := IZR cam_h * inverse_ratio in
  fov_ratio <-
    (if py_ge new_width (IZR cam_w)
     then probe_fov_ratio camera new_width (IZR cam_h)
     else probe_fov_ratio camera (IZR cam_w) (IZR cam_h)) ;;
  Ok (cam_w, cam_h, fov_ratio).

(** ** Sample scenes *)

(** A 35 mm camera with a 2 x 1 inch film gate. *)
Definition camera_2x1 (film_fit : string) : Camera := {|
  aspectRatio := 2;
  horizontalFilmAperture := 2;
  verticalFilmAperture := 1;
  horizontalFilmOffset := 0;
  verticalFilmOffset := 0;
  filmFitOffset := 0;
  focalLength := 35;
  nearClipPlane := 1;
  cameraScale := 1;
  overscan := 1;
  filmFit := film_fit;
  horizontalFieldOfView := 1
|}.

Definition render_globals (w h : Z) (ignore_film_gate : bool) : RenderGlobals := {|
  resolution := [ {| width := w; height := h |} ];
  ignoreFilmGate := ignore_film_gate
|}.

(** A 35 mm camera whose film gate has the aperture ratio 1.5. *)
Definition camera_3x2 (film_fit : string) : Camera := {|
  aspectRatio := 1.5;
  horizontalFilmAperture := 1.5;
  verticalFilmAperture := 1;
  horizontalFilmOffset := 0;
  verticalFilmOffset := 0;
  filmFitOffset := 1;
  focalLength := 35;
  nearClipPlane := 0.1;
  cameraScale := 1;
  overscan := 1;
  filmFit := film_fit;
  horizontalFieldOfView := 1
|}.

(** The same camera with other film offsets, or another overscan. *)
Definition with_film_offset (camera : Camera) (offset_x offset_y : R) : Camera := {|
  aspectRatio := aspectRatio camera;
  horizontalFilmAperture := horizontalFilmAperture camera;
  verticalFilmAperture := verticalFilmAperture camera;
  horizontalFilmOffset := offset_x;
  verticalFilmOffset := offset_y;
  filmFitOffset := filmFitOffset camera;
  focalLength := focalLength camera;
  nearClipPlane := nearClipPlane camera;
  cameraScale := cameraScale camera;
  overscan := overscan camera;
  filmFit := filmFit camera;
  horizontalFieldOfView := horizontalFieldOfView camera
|}.

Definition with_overscan (camera : Camera) (o : R) : Camera := {|
  aspectRatio := aspectRatio camera;
  horizontalFilmAperture := horizontalFilmAperture camera;
  verticalFilmAperture := verticalFilmAperture camera;
  horizontalFilmOffset := horizontalFilmOffset camera;
  verticalFilmOffset := verticalFilmOffset camera;
  filmFitOffset := filmFitOffset camera;
  focalLength := focalLength camera;
  nearClipPlane := nearClipPlane camera;
  cameraScale := cameraScale camera;
  overscan := o;
  filmFit := filmFit camera;
  horizontalFieldOfView := horizontalFieldOfView camera
|}.

(** A camera node whose attributes are all out of their physical range, with
    a film fit that is none of the four modes. *)
Definition camera_out_of_range : Camera := {|
  aspectRatio := -1;
  horizontalFilmAperture := -1;
  verticalFilmAperture := 0;
  horizontalFilmOffset := 0;
  verticalFilmOffset := 0;
  filmFitOffset := 0;
  focalLength := -35;
  nearClipPlane := -1;
  cameraScale := -1;
  overscan := -1;
  filmFit := "stretch";
  horizontalFieldOfView := 1
|}.

(** A Fill camera whose vertical film aperture is zero. *)
Definition camera_out_of_range_fill : Camera := {|
  aspectRatio := 2;
  horizontalFilmAperture := 2;
  verticalFilmAperture := 0;
  horizontalFilmOffset := 0;
  verticalFilmOffset := 0;
  filmFitOffset := 0;
  focalLength := 35;
  nearClipPlane := 1;
  cameraScale := 1;
  overscan := 1;
  filmFit := "fill";
  horizontalFieldOfView := 1
|}.

(** ** Where the frustum divides

    The aspect the branch of [film_fit] selected by [window_aspect] divides
    by is zero (lines 36-56). *)
Definition fit_divisor_is_zero (camera : Camera) (window_aspect : R) : Prop :=
  let film_aspect := aspectRatio camera in
  let film_fit := filmFit camera in
  (film_fit = "fill"%string
   /\ ((window_aspect < film_aspect /\ film_aspect = 0)
       \/ (film_aspect <= window_aspect /\ window_aspect = 0)))
  \/ (film_fit = "horizontal"%string /\ window_aspect = 0)
  \/ (film_fit = "vertical"%string /\ film_aspect = 0)
  \/ (film_fit = "overscan"%string
      /\ ((window_aspect < film_aspect /\ window_aspect = 0)
          \/ (film_aspect <= window_aspect /\ film_aspect = 0))).

(** [film_fit] is one of the four modes the source tests for. *)
Definition known_film_fit (film_fit : string) : Prop :=
  film_fit = "fill"%string \/ film_fit = "horizontal"%string
  \/ film_fit = "vertical"%string \/ film_fit = "overscan"%string.

(** ** Cameras of positive measures

    The attributes that are lengths are positive and the near clip plane is
    not at the eye. *)
Definition positive_camera (camera : Camera) : Prop :=
  0 < horizontalFilmAperture camera
  /\ 0 < verticalFilmAperture camera
  /\ 0 < focalLength camera
  /\ nearClipPlane camera <> 0
  /\ 0 < cameraScale camera
  /\ 0 < aspectRatio camera.

(** * The same functions over binary64 floats

    Where a result depends on the last bit of a quotient (which side of
    [new_width < cam_width] a value falls on, which integer [int(...)]
    returns), the functions are read once more with every [float] a binary64
    number and every operation rounded as IEEE 754 rounds it, on Rocq's
    primitive floats.  [math.atan] belongs to the C library, not to this
    module: it is the parameter [atan] of the functions that call it.  An
    [int] is an unbounded integer; [float(n)] on an [int] rounds to the
    nearest float and raises [OverflowError] past the largest one, [int(x)]
    truncates toward zero and raises on NaN and infinities, and a float is
    compared with an [int] exactly, as Python does. *)
Module F64.
Import PrimFloat SpecFloat FloatOps.
#[local] Set Warnings "-inexact-float".

Inductive PyExn : Type :=
| ZeroDivisionError
| OverflowError
| ValueError.

Inductive result (A : Type) : Type :=
| Ok (a : A)
| Raise (e : PyExn).

Arguments Ok {A} a.
Arguments Raise {A} e.

Definition bind {A B : Type} (m : result A) (k : A -> result B) : result B :=
  match m with
  | Ok a => k a
  | Raise e => Raise e
  end.

Declare Scope f64_scope.
Delimit Scope f64_scope with f64.
Notation "x <- m ;; k" := (bind m (fun x => k))
  (at level 61, m at next level, right associativity) : f64_scope.
Notation "' p <- m ;; k" := (bind m (fun x => match x with p => k end))
  (at level 61, p pattern, m at next level, right associativity) : f64_scope.
Local Open Scope f64_scope.

(** A number handed to [float(...)]: an [int] or a [float]. *)
Inductive PyNum : Type :=
| PyInt (n : Z)
| PyFloat (x : float).

(** [float(n)] on an [int]: the nearest float, ties to even. *)
Definition float_of_int (n : Z) : result float :=
  let x := SF2Prim (binary_normalize prec emax n 0 false) in
  if is_infinity x then Raise OverflowError else Ok x.

(** [float(v)]. *)
Definition py_float (v : PyNum) : result float :=
  match v with
  | PyInt n => float_of_int n
  | PyFloat x => Ok x
  end.

(** [int(x)] on a float: truncation toward zero. *)
Definition py_int (x : float) : result Z :=
  match Prim2SF x with
  | S754_nan => Raise ValueError
  | S754_infinity _ => Raise OverflowError
  | S754_zero _ => Ok 0%Z
  | S754_finite s m e =>
      let magnitude :=
        if (0 <=? e)%Z then (Zpos m * 2 ^ e)%Z else (Zpos m / 2 ^ (- e))%Z in
      Ok (if s then (- magnitude)%Z else magnitude)
  end.

(** The exact order of a float and an [int]; a NaN has none. *)
Definition float_compare_int (x : float) (n : Z) : option comparison :=
  match Prim2SF x with
  | S754_nan => None
  | S754_infinity s => Some (if s then Lt else Gt)
  | S754_zero _ => Some (0 ?= n)%Z
  | S754_finite s m e =>
      let mantissa := if s then Zneg m else Zpos m in
      if (0 <=? e)%Z then Some (mantissa * 2 ^ e ?= n)%Z
      else Some (mantissa ?= n * 2 ^ (- e))%Z
  end.

(** [x < n] and [x >= n] for a float [x] and an [int] [n]. *)
Definition py_lt_int (x : float) (n : Z) : bool :=
  match float_compare_int x n with
  | Some Lt => true
  | _ => false
  end.

Definition py_ge_int (x : float) (n : Z) : bool :=
  match float_compare_int x n with
  | Some Gt | Some Eq => true
  | _ => false
  end.

(** [a / b] on floats. *)
Definition py_div (a b : float) : result float :=
  if (b =? 0)%float then Raise ZeroDivisionError else Ok (a / b)%float.

Record Camera : Type := {
  aspectRatio : float;
  horizontalFilmAperture : float;
  verticalFilmAperture : float;
  horizontalFilmOffset : float;
  verticalFilmOffset : float;
  filmFitOffset : float;
  focalLength : float;
  nearClipPlane : float;
  cameraScale : float;
  overscan : float;
  filmFit : string;
  horizontalFieldOfView : float
}.

Definition mm_to_inch : float := 0.03937007874.

Definition film_fit_scaling (camera : Camera) (window_aspect : float)
  : result (float * float * float * float) :=
  let film_aspect := aspectRatio camera in
  let aperture_x := horizontalFilmAperture camera in
  let aperture_y := verticalFilmAperture camera in
  let film_fit_offset := filmFitOffset camera in
  let scale_x := 1.0%float in
  let scale_y := 1.0%float in
  let translate_x := 0.0%float in
  let translate_y := 0.0%float in
  let film_fit := filmFit camera in
  if (film_fit =? "fill")%string then
    if (window_aspect <? film_aspect)%float then
      scale_x <- py_div window_aspect film_aspect ;;
      Ok (scale_x, scale_y, translate_x, translate_y)
    else
      scale_y <- py_div film_aspect window_aspect ;;
      Ok (scale_x, scale_y, translate_x, translate_y)
  else if (film_fit =? "horizontal")%string then
    scale_y <- py_div film_aspect window_aspect ;;
    if (1.0 <? scale_y)%float then
      let translate_y :=
        (film_fit_offset * (aperture_y - (aperture_y * scale_y)) / 2.0)%float in
      Ok (scale_x, scale_y, translate_x, translate_y)
    else Ok (scale_x, scale_y, translate_x, translate_y)
  else if (film_fit =? "vertical")%string then
    scale_x <- py_div window_aspect film_aspect ;;
    if (1.0 <? scale_x)%float then
      let translate_x :=
        (film_fit_offset * (aperture_x - (aperture_x * scale_x)) / 2.0)%float in
      Ok (scale_x, scale_y, translate_x, translate_y)
    else Ok (scale_x, scale_y, translate_x, translate_y)
  else if (film_fit =? "overscan")%string then
    if (window_aspect <? film_aspect)%float then
      scale_y <- py_div film_aspect window_aspect ;;
      Ok (scale_x, scale_y, translate_x, translate_y)
    else
      scale_x <- py_div window_aspect film_aspect ;;
      Ok (scale_x, scale_y, translate_x, translate_y)
  else Ok (scale_x, scale_y, translate_x, translate_y).

Definition compute_camera_viewing_frustum
  (camera : Camera) (window_aspect : float) (apply_overscan : bool)
  : result (float * float * float * float) :=
  let aperture_x := horizontalFilmAperture camera in
  let aperture_y := verticalFilmAperture camera in
  let offset_x := horizontalFilmOffset camera in
  let offset_y := verticalFilmOffset camera in
  let focal_len_inch := (focalLength camera * mm_to_inch)%float in
  focal_to_near <- py_div (nearClipPlane camera) focal_len_inch ;;
  let focal_to_near := (focal_to_near * cameraScale camera)%float in
  '(scale_x, scale_y, translate_x, translate_y) <-
    film_fit_scaling camera window_aspect ;;
  let '(scale_x, scale_y) :=
    if apply_overscan
    then ((scale_x * overscan camera)%float, (scale_y * overscan camera)%float)
    else (scale_x, scale_y) in
  let left :=
    (focal_to_near * (-0.5 * aperture_x * scale_x + offset_x + translate_x))%float in
  let right :=
    (focal_to_near * (0.5 * aperture_x * scale_x + offset_x + translate_x))%float in
  let bottom :=
    (focal_to_near * (-0.5 * aperture_y * scale_y + offset_y + translate_y))%float in
  let top :=
    (focal_to_near * (0.5 * aperture_y * scale_y + offset_y + translate_y))%float in
  Ok (left, right, bottom, top).

Section WithAtan.

(** [math.atan]. *)
Variable atan : float -> float.

Definition get_camera_port_field_of_view
  (camera : Camera) (port_width port_height : PyNum) : result (float * float) :=
  width <- py_float port_width ;;
  height <- py_float port_height ;;
  window_aspect <- py_div width height ;;
  '(f_left, f_right, f_bottom, f_top) <-
    compute_camera_viewing_frustum camera window_aspect false ;;
  let near := nearClipPlane camera in
  h <- py_div ((f_right - f_left) * 0.5)%float near ;;
  let horizontal := (atan h * 2.0)%float in
  v <- py_div ((f_top - f_bottom) * 0.5)%float near ;;
  let vertical := (atan v * 2.0)%float in
  Ok (horizontal, vertical).

(** [hfov, vfov = get_camera_port_field_of_view(camera, w, h)] followed by
    [fov_ratio = hfov / vfov]. *)
Definition probe_fov_ratio (camera : Camera) (w h : PyNum) : result float :=
  '(hfov, vfov) <- get_camera_port_field_of_view camera w h ;;
  py_div hfov vfov.

(** [n / (a / b)] for an [int] [n]: the quotient of the two floats first,
    then [n] made a float and divided. *)
Definition int_div_by_ratio (n : Z) (a b : float) : result float :=
  ratio <- py_div a b ;;
  numerator <- float_of_int n ;;
  py_div numerator ratio.

Definition get_camera_resolution_fov_ratio
  (rg : RenderGlobals) (camera : Camera) : result (Z * Z * float) :=
  let fov_ratio := 1.0%float in
  let ignore_film_gate := will_render_ignore_film_gate rg in
  let '(cam_width, cam_height) :=
    camera_start_resolution (get_render_image_resolution rg) in
  let aperture_x := horizontalFilmAperture camera in
  let aperture_y := verticalFilmAperture camera in
  let film_fit := filmFit camera in
  if (film_fit =? "horizontal")%string then
    cam_height <-
      (if negb ignore_film_gate then
         new_height <- int_div_by_ratio cam_width aperture_x aperture_y ;;
         if py_lt_int new_height cam_height
         then py_int new_height
         else Ok cam_height
       else Ok cam_height) ;;
    fov_ratio <- probe_fov_ratio camera (PyInt cam_width) (PyInt cam_height) ;;
    Ok (cam_width, cam_height, fov_ratio)
  else if (film_fit =? "vertical")%string then
    new_width <- int_div_by_ratio cam_height aperture_y aperture_x ;;
    (* case 1: film-gate smaller than resolution, film-gate on *)
    if py_lt_int new_width cam_width && negb ignore_film_gate then
      cam_width <- py_int new_width ;;
      let fov_ratio := 1.0%float in
      Ok (cam_width, cam_height, fov_ratio)
    (* case 2: film-gate smaller than resolution, film-gate off *)
    else if py_lt_int new_width cam_width && ignore_film_gate then
      fov_ratio <- probe_fov_ratio camera (PyFloat new_width) (PyInt cam_height) ;;
      Ok (cam_width, cam_height, fov_ratio)
    (* case 3: film-gate larger than resolution, film-gate on *)
    else if negb ignore_film_gate then
      fov_ratio <- probe_fov_ratio camera (PyFloat new_width) (PyInt cam_height) ;;
      Ok (cam_width, cam_height, fov_ratio)
    (* case 4: film-gate larger than resolution, film-gate off *)
    else if ignore_film_gate then
      fov_ratio <- probe_fov_ratio camera (PyFloat new_width) (PyInt cam_height) ;;
      Ok (cam_width, cam_height, fov_ratio)
    else Ok (cam_width, cam_height, fov_ratio)
  else if (film_fit =? "overscan")%string then
    new_height <- int_div_by_ratio cam_width aperture_x aperture_y ;;
    new_width <- int_div_by_ratio cam_height aperture_y aperture_x ;;
    if py_lt_int new_width cam_width then
      if negb ignore_film_gate then
        cam_width <- py_int new_width ;;
        let fov_ratio := 1.0%float in
        Ok (cam_width, cam_height, fov_ratio)
      else
        fov_ratio <- probe_fov_ratio camera (PyFloat new_width) (PyInt cam_height) ;;
        Ok (cam_width, cam_height, fov_ratio)
    else
      cam_height <-
        (if negb ignore_film_gate then py_int new_height else Ok cam_height) ;;
      fov_ratio <- probe_fov_ratio camera (PyInt cam_width) (PyInt cam_height) ;;
      Ok (cam_width, cam_height, fov_ratio)
  else if (film_fit =? "fill")%string then
    new_width <- int_div_by_ratio cam_height aperture_y aperture_x ;;
    fov_ratio <-
      (if py_ge_int new_width cam_width
       then probe_fov_ratio camera (PyFloat new_width) (PyInt cam_height)
       else probe_fov_ratio camera (PyInt cam_width) (PyInt cam_height)) ;;
    Ok (cam_width, cam_height, fov_ratio)
  else Ok (cam_width, cam_height, fov_ratio).

Definition get_camera_field_of_view
  (rg : RenderGlobals) (camera : Camera) : result float :=
  '(cam_width, cam_height, fov_ratio) <-
    get_camera_resolution_fov_ratio rg camera ;;
  py_div (horizontalFieldOfView camera) fov_ratio.

End WithAtan.

(** A 35 mm camera with a film gate of [aperture_x] by [aperture_y]. *)
Definition sample_camera (aperture_x aperture_y : float) (film_fit : string)
  : Camera := {|
  aspectRatio := (aperture_x / aperture_y)%float;
  horizontalFilmAperture := aperture_x;
  verticalFilmAperture := aperture_y;
  horizontalFilmOffset := 0.0;
  verticalFilmOffset := 0.0;
  filmFitOffset := 0.0;
  focalLength := 35.0;
  nearClipPlane := 0.1;
  cameraScale := 1.0;
  overscan := 1.0;
  filmFit := film_fit;
  horizontalFieldOfView := 1.0
|}.

End F64.

(** * Properties *)

(** ** The arithmetic primitives *)

Lemma py_div_ok (a b : R) : b <> 0 -> py_div a b = Ok (a / b).
Proof.
  intros Hb. unfold py_div. destruct (Req_dec_T b 0); [contradiction | reflexivity].
Qed.

Lemma py_div_zero (a : R) : py_div a 0 = Raise ZeroDivisionError.
Proof.
  unfold py_div. destruct (Req_dec_T 0 0) as [_ | H]; [reflexivity | now destruct H].
Qed.

Lemma py_div_raise_iff (a b : R) :
  (exists e, py_div a b = Raise e) <-> b = 0.
Proof.
  unfold py_div. destruct (Req_dec_T b 0) as [H | H]; split; intros H'.
  - exact H.
  - now exists ZeroDivisionError.
  - destruct H' as [e He]. discriminate He.
  - contradiction.
Qed.

Lemma py_lt_true (a b : R) : a < b -> py_lt a b = true.
Proof. intros H. unfold py_lt. destruct (Rlt_dec a b); [reflexivity | contradiction]. Qed.

Lemma py_lt_false (a b : R) : b <= a -> py_lt a b = false.
Proof. intros H. unfold py_lt. destruct (Rlt_dec a b); [lra | reflexivity]. Qed.

Lemma py_lt_spec (a b : R) : reflect (a < b) (py_lt a b).
Proof. unfold py_lt. destruct (Rlt_dec a b); constructor; assumption. Qed.

Lemma py_ge_spec (a b : R) : reflect (a >= b) (py_ge a b).
Proof. unfold py_ge. destruct (Rge_dec a b); constructor; assumption. Qed.

Lemma py_ge_true (a b : R) : b <= a -> py_ge a b = true.
Proof. intros H. destruct (py_ge_spec a b); [reflexivity | lra]. Qed.

Lemma py_ge_false (a b : R) : a < b -> py_ge a b = false.
Proof. intros H. destruct (py_ge_spec a b); [lra | reflexivity]. Qed.

Lemma mm_to_inch_pos : 0 < mm_to_inch.
Proof. unfold mm_to_inch. lra. Qed.

(** [int] of a non-negative float is its floor. *)
Lemma py_int_floor (x : R) : 0 <= x -> py_int x = Int_part x.
Proof.
  intros Hx. unfold py_int. destruct (Rle_dec 0 x); [reflexivity | contradiction].
Qed.

(** [int] of a float that is an integer is that integer. *)
Lemma py_int_IZR (n : Z) : py_int (IZR n) = n.
Proof.
  unfold py_int. destruct (Rle_dec 0 (IZR n)) as [H | H].
  - symmetry. apply Int_part_spec. lra.
  - rewrite <- opp_IZR.
    replace (Int_part (IZR (- n))) with (- n)%Z; [lia |].
    apply Int_part_spec. lra.
Qed.

(** Truncation never climbs over an integer bound. *)
Lemma py_int_le (x : R) (c : Z) : x <= IZR c -> (py_int x <= c)%Z.
Proof.
  intros Hx. unfold py_int. destruct (Rle_dec 0 x) as [H | H].
  - apply le_IZR. destruct (base_Int_part x) as [Hlo _]. lra.
  - destruct (base_Int_part (- x)) as [_ Hhi].
    assert (Hlt : IZR (- Int_part (- x)) < IZR (c + 1)).
    { rewrite opp_IZR, plus_IZR. lra. }
    apply lt_IZR in Hlt. lia.
Qed.

(** ** The frustum and the field of view, step by step *)

Lemma compute_camera_viewing_frustum_ok
  (camera : Camera) (window_aspect : R) (apply_overscan : bool)
  (scale_x scale_y translate_x translate_y : R) :
  focalLength camera <> 0 ->
  film_fit_scaling camera window_aspect
    = Ok (scale_x, scale_y, translate_x, translate_y) ->
  let focal_to_near :=
    nearClipPlane camera / (focalLength camera * mm_to_inch) * cameraScale camera in
  let o := if apply_overscan then overscan camera else 1 in
  compute_camera_viewing_frustum camera window_aspect apply_overscan =
    Ok (focal_to_near * (-0.5 * horizontalFilmAperture camera * (scale_x * o)
                         + horizontalFilmOffset camera + translate_x),
        focal_to_near * (0.5 * horizontalFilmAperture camera * (scale_x * o)
                         + horizontalFilmOffset camera + translate_x),
        focal_to_near * (-0.5 * verticalFilmAperture camera * (scale_y * o)
                         + verticalFilmOffset camera + translate_y),
        focal_to_near * (0.5 * verticalFilmAperture camera * (scale_y * o)
                         + verticalFilmOffset camera + translate_y)).
Proof.
  intros Hf Hs. unfold compute_camera_viewing_frustum.
  pose proof mm_to_inch_pos as Hmm.
  rewrite py_div_ok by nra.
  cbn [bind]. rewrite Hs. cbn [bind].
  destruct apply_overscan; cbn; repeat f_equal; ring.
Qed.

Lemma get_camera_port_field_of_view_ok
  (camera : Camera) (port_width port_height : R) (l r b t : R) :
  port_height <> 0 ->
  nearClipPlane camera <> 0 ->
  compute_camera_viewing_frustum camera (port_width / port_height) false
    = Ok (l, r, b, t) ->
  get_camera_port_field_of_view camera port_width port_height =
    Ok (atan ((r - l) * 0.5 / nearClipPlane camera) * 2,
        atan ((t - b) * 0.5 / nearClipPlane camera) * 2).
Proof.
  intros Hh Hn Hfr. unfold get_camera_port_field_of_view.
  rewrite py_div_ok by assumption. cbn [bind]. rewrite Hfr. cbn [bind].
  rewrite !py_div_ok by assumption. reflexivity.
Qed.

(** Decimal literals are rationals injected by [Q2R]; [field] wants them as
    quotients. *)
Lemma half_quotient : 0.5 = / 2.
Proof. lra. Qed.

Lemma neg_half_quotient : -0.5 = - / 2.
Proof. lra. Qed.

Ltac quotients := rewrite ?half_quotient, ?neg_half_quotient.

Lemma atan_pos (x : R) : 0 < x -> 0 < atan x.
Proof. intros H. rewrite <- atan_0. now apply atan_increasing. Qed.

Lemma probe_fov_ratio_ok (camera : Camera) (w h hfov vfov : R) :
  get_camera_port_field_of_view camera w h = Ok (hfov, vfov) ->
  vfov <> 0 ->
  probe_fov_ratio camera w h = Ok (hfov / vfov).
Proof.
  intros Hfov Hv. unfold probe_fov_ratio. rewrite Hfov. cbn [bind].
  now apply py_div_ok.
Qed.

(** The Fill scaling of the 2 x 1 camera: a port narrower than the film gate
    scales x, any other port scales y. *)
Lemma fill_scaling_2x1_narrow (window_aspect : R) :
  window_aspect < 2 ->
  film_fit_scaling (camera_2x1 "fill") window_aspect
  = Ok (window_aspect / 2, 1, 0, 0).
Proof.
  intros H. unfold film_fit_scaling. cbn.
  rewrite py_lt_true by assumption. rewrite py_div_ok by lra. reflexivity.
Qed.

Lemma fill_scaling_2x1_wide (window_aspect : R) :
  2 <= window_aspect ->
  film_fit_scaling (camera_2x1 "fill") window_aspect
  = Ok (1, 2 / window_aspect, 0, 0).
Proof.
  intros H. unfold film_fit_scaling. cbn.
  rewrite py_lt_false by assumption. rewrite py_div_ok by lra. reflexivity.
Qed.

(** The field of view of the 2 x 1 Fill camera through a port of height 240. *)
Lemma fill_fov_2x1 (w sx sy : R) :
  film_fit_scaling (camera_2x1 "fill") (w / 240) = Ok (sx, sy, 0, 0) ->
  get_camera_port_field_of_view (camera_2x1 "fill") w 240
  = Ok (atan (sx / (35 * mm_to_inch)) * 2, atan (sy / 2 / (35 * mm_to_inch)) * 2).
Proof.
  intros Hs. pose proof mm_to_inch_pos as Hmm.
  erewrite get_camera_port_field_of_view_ok; cycle 1.
  - lra.
  - cbn. lra.
  - apply compute_camera_viewing_frustum_ok; [cbn; lra | exact Hs].
  - cbn. quotients. do 2 f_equal; f_equal; f_equal; field; lra.
Qed.

Lemma fill_code_at_2x1 :
  let k := / (35 * mm_to_inch) in
  get_camera_resolution_fov_ratio (render_globals 320 240 false) (camera_2x1 "fill")
  = Ok (320%Z, 240%Z, atan k * 2 / (atan (k / 2) * 2)).
Proof.
  intros k. pose proof mm_to_inch_pos as Hmm.
  assert (Hk : 0 < k) by (apply Rinv_0_lt_compat; lra).
  unfold get_camera_resolution_fov_ratio. cbn.
  unfold div_by_ratio. rewrite py_div_ok by lra. cbn [bind].
  rewrite py_div_ok by lra. cbn [bind].
  rewrite py_ge_true by lra.
  erewrite probe_fov_ratio_ok; cycle 1.
  - apply fill_fov_2x1. apply fill_scaling_2x1_wide. lra.
  - replace (2 / (240 / (1 / 2) / 240) / 2 / (35 * mm_to_inch)) with (k / 2)
      by (unfold k; field; lra).
    pose proof (atan_pos (k / 2)). lra.
  - cbn [bind]. do 2 f_equal. f_equal; f_equal; f_equal; unfold k; field; lra.
Qed.

Lemma fill_spec_at_2x1 :
  let k := / (35 * mm_to_inch) in
  spec_fill_inverse_ratio (render_globals 320 240 false) (camera_2x1 "fill")
  = Ok (320%Z, 240%Z, atan (k * (2 / 3)) * 2 / (atan (k / 2) * 2)).
Proof.
  intros k. pose proof mm_to_inch_pos as Hmm.
  assert (Hk : 0 < k) by (apply Rinv_0_lt_compat; lra).
  unfold spec_fill_inverse_ratio. cbn.
  rewrite py_div_ok by lra. cbn [bind].
  rewrite py_ge_false by lra.
  erewrite probe_fov_ratio_ok; cycle 1.
  - apply fill_fov_2x1. apply fill_scaling_2x1_narrow. lra.
  - pose proof (atan_pos (1 / 2 / (35 * mm_to_inch))) as Hp.
    assert (0 < 1 / 2 / (35 * mm_to_inch)).
    { apply Rdiv_lt_0_compat; lra. }
    lra.
  - cbn [bind]. do 2 f_equal. f_equal; f_equal; f_equal; unfold k; field; lra.
Qed.

(** ** C1: the probe width of the Fill branch *)

(** C1, as stated, fails.  On a 2 x 1 film gate rendered at 320 x 240 the
    source divides the height by [aperture_y / aperture_x] and probes the
    field of view at (480, 240), while the inverse ratio of the specification
    gives the width 120 and the probe (320, 240): the two [fov_ratio]s
    differ. *)
Lemma fill_inverse_ratio_counterexample :
  exists r_code r_spec : R,
    get_camera_resolution_fov_ratio
      (render_globals 320 240 false) (camera_2x1 "fill")
      = Ok (320%Z, 240%Z, r_code)
    /\ spec_fill_inverse_ratio
         (render_globals 320 240 false) (camera_2x1 "fill")
       = Ok (320%Z, 240%Z, r_spec)
    /\ r_code <> r_spec.
Proof.
  pose proof mm_to_inch_pos as Hmm.
  set (k := / (35 * mm_to_inch)).
  assert (Hk : 0 < k) by (apply Rinv_0_lt_compat; lra).
  exists (atan k * 2 / (atan (k / 2) * 2)),
         (atan (k * (2 / 3)) * 2 / (atan (k / 2) * 2)).
  split; [exact fill_code_at_2x1 |].
  split; [exact fill_spec_at_2x1 |].
  intros Heq.
  pose proof (atan_pos (k / 2)) as Hd.
  assert (Hlt : atan (k * (2 / 3)) < atan k) by (apply atan_increasing; lra).
  apply Rmult_eq_compat_r with (r := atan (k / 2) * 2) in Heq.
  unfold Rdiv in Heq. rewrite !Rmult_assoc, !Rinv_l in Heq by lra. lra.
Qed.

(** C1, amended: in the Fill branch the probe width is
    [new_width = cam_h / (aperture_y / aperture_x)], which for non-zero
    apertures is [cam_h * (aperture_x / aperture_y)], the same ratio as the
    other modes.  The field of view is probed at [(new_width, cam_h)] when
    [new_width >= cam_w] and at [(cam_w, cam_h)] otherwise, [fov_ratio] is the
    horizontal / vertical quotient of that probe, and the reported width and
    height are the starting ones. *)
Theorem fill_probe_width
  (rg : RenderGlobals) (camera : Camera) (cam_w cam_h : Z) :
  filmFit camera = "fill"%string ->
  horizontalFilmAperture camera <> 0 ->
  verticalFilmAperture camera <> 0 ->
  camera_start_resolution (get_render_image_resolution rg) = (cam_w, cam_h) ->
  let new_width :=
    IZR cam_h / (verticalFilmAperture camera / horizontalFilmAperture camera) in
  let probe_width :=
    if py_ge new_width (IZR cam_w) then new_width else IZR cam_w in
  new_width
    = IZR cam_h * (horizontalFilmAperture camera / verticalFilmAperture camera)
  /\ get_camera_resolution_fov_ratio rg camera =
       ('(hfov, vfov) <-
          get_camera_port_field_of_view camera probe_width (IZR cam_h) ;;
        fov_ratio <- py_div hfov vfov ;;
        Ok (cam_w, cam_h, fov_ratio)).
Proof.
  intros Hfit Hx Hy Hres new_width probe_width. split.
  - unfold new_width. field. split; assumption.
  - unfold get_camera_resolution_fov_ratio. rewrite Hres, Hfit. cbn.
    unfold div_by_ratio. rewrite py_div_ok by assumption. cbn [bind].
    rewrite py_div_ok
      by (apply Rmult_integral_contrapositive_currified;
          [assumption | now apply Rinv_neq_0_compat]).
    cbn [bind]. fold new_width. unfold probe_width, probe_fov_ratio.
    destruct (py_ge new_width (IZR cam_w));
      destruct (get_camera_port_field_of_view camera _ (IZR cam_h))
        as [[hfov vfov] | e]; reflexivity.
Qed.

Lemma fill_probe_width_witness :
  IZR 240 / (1 / 2) = IZR 240 * (2 / 1)
  /\ get_camera_resolution_fov_ratio
       (render_globals 320 240 false) (camera_2x1 "fill") =
       ('(hfov, vfov) <-
          get_camera_port_field_of_view (camera_2x1 "fill")
            (if py_ge (IZR 240 / (1 / 2)) (IZR 320)
             then IZR 240 / (1 / 2) else IZR 320) (IZR 240) ;;
        fov_ratio <- py_div hfov vfov ;;
        Ok (320%Z, 240%Z, fov_ratio)).
Proof.
  apply (fill_probe_width (render_globals 320 240 false) (camera_2x1 "fill")
           320 240).
  - reflexivity.
  - simpl. lra.
  - simpl. lra.
  - reflexivity.
Defined.

(** ** C2: what makes the frustum fail *)

Lemma bind_raise_iff {A B : Type} (m : result A) (k : A -> result B) :
  (exists e, bind m k = Raise e) <->
  (exists e, m = Raise e) \/ (exists a e, m = Ok a /\ k a = Raise e).
Proof.
  destruct m as [a | e0]; cbn; split.
  - intros [e He]. right. now exists a, e.
  - intros [[e He] | [a' [e [Ha He]]]]; [discriminate |].
    injection Ha as <-. now exists e.
  - intros _. left. now exists e0.
  - intros _. now exists e0.
Qed.

Ltac film_fit_cases camera :=
  unfold film_fit_scaling;
  destruct (String.eqb_spec (filmFit camera) "fill") as [Hfill | Hfill];
  [| destruct (String.eqb_spec (filmFit camera) "horizontal") as [Hhor | Hhor];
     [| destruct (String.eqb_spec (filmFit camera) "vertical") as [Hver | Hver];
        [| destruct (String.eqb_spec (filmFit camera) "overscan") as [Hover | Hover]]]].

Lemma film_fit_scaling_raise_iff (camera : Camera) (window_aspect : R) :
  (exists e, film_fit_scaling camera window_aspect = Raise e)
  <-> fit_divisor_is_zero camera window_aspect.
Proof.
  unfold fit_divisor_is_zero.
  film_fit_cases camera.
  - destruct (py_lt_spec window_aspect (aspectRatio camera)) as [Hlt | Hge];
      rewrite bind_raise_iff, py_div_raise_iff; split.
    + intros [H | [a [e [_ He]]]]; [| discriminate]. left. split; [assumption |]. now left.
    + intros [[_ [[_ H] | [Hle H]]] | [[H _] | [[H _] | [H _]]]];
        try (rewrite Hfill in H; discriminate); [now left | lra].
    + intros [H | [a [e [_ He]]]]; [| discriminate]. left. split; [assumption |].
      right. split; [lra | assumption].
    + intros [[_ [[Hlt H] | [Hle H]]] | [[H _] | [[H _] | [H _]]]];
        try (rewrite Hfill in H; discriminate); [lra | now left].
  - rewrite bind_raise_iff, py_div_raise_iff; split.
    + intros [H | [a [e [_ He]]]].
      * right. left. now split.
      * destruct (py_gt a 1); discriminate.
    + intros [[H _] | [[_ H] | [[H _] | [H _]]]];
        try (rewrite Hhor in H; discriminate). now left.
  - rewrite bind_raise_iff, py_div_raise_iff; split.
    + intros [H | [a [e [_ He]]]].
      * right. right. left. now split.
      * destruct (py_gt a 1); discriminate.
    + intros [[H _] | [[H _] | [[_ H] | [H _]]]];
        try (rewrite Hver in H; discriminate). now left.
  - destruct (py_lt_spec window_aspect (aspectRatio camera)) as [Hlt | Hge];
      rewrite bind_raise_iff, py_div_raise_iff; split.
    + intros [H | [a [e [_ He]]]]; [| discriminate]. do 3 right. split; [assumption |]. now left.
    + intros [[H _] | [[H _] | [[H _] | [_ [[_ H] | [Hle H]]]]]];
        try (rewrite Hover in H; discriminate); [now left | lra].
    + intros [H | [a [e [_ He]]]]; [| discriminate]. do 3 right. split; [assumption |].
      right. split; [lra | assumption].
    + intros [[H _] | [[H _] | [[H _] | [_ [[Hlt H] | [Hle H]]]]]];
        try (rewrite Hover in H; discriminate); [lra | now left].
  - split.
    + intros [e He]. discriminate.
    + intros [[H _] | [[H _] | [[H _] | [H _]]]]; contradiction.
Qed.

Lemma film_fit_scaling_unknown (camera : Camera) (window_aspect : R) :
  ~ known_film_fit (filmFit camera) ->
  film_fit_scaling camera window_aspect = Ok (1, 1, 0, 0).
Proof.
  intros Hk. unfold known_film_fit in Hk.
  film_fit_cases camera; try reflexivity; exfalso; apply Hk; tauto.
Qed.

(** Two results holding a frustum are equal when the four sides are. *)
Ltac frustum_eq :=
  f_equal;
  apply (f_equal2 pair);
  [apply (f_equal2 pair); [apply (f_equal2 pair) | ] | ];
  ring.

Lemma compute_camera_viewing_frustum_raise_iff
  (camera : Camera) (window_aspect : R) (apply_overscan : bool) :
  (exists e,
     compute_camera_viewing_frustum camera window_aspect apply_overscan = Raise e)
  <-> focalLength camera = 0 \/ fit_divisor_is_zero camera window_aspect.
Proof.
  pose proof mm_to_inch_pos as Hmm.
  rewrite <- film_fit_scaling_raise_iff.
  unfold compute_camera_viewing_frustum.
  rewrite bind_raise_iff, py_div_raise_iff. split.
  - intros [H | [f [e [_ He]]]].
    + left. nra.
    + right. destruct (film_fit_scaling camera window_aspect)
        as [[[[sx sy] tx] ty] | e0]; cbn in He.
      * destruct apply_overscan; discriminate.
      * now exists e0.
  - intros [H | [e He]].
    + left. rewrite H. ring.
    + destruct (Req_dec_T (focalLength camera * mm_to_inch) 0) as [Hz | Hnz].
      * now left.
      * right. eexists _, e. split; [now apply py_div_ok |].
        rewrite He. reflexivity.
Qed.

(** C2, as stated, fails.  With a negative horizontal aperture, a zero
    vertical aperture, a negative near clip, focal length, camera scale and
    window aspect, and a film fit that is none of the four modes, the source
    returns a rectangle. *)
Lemma frustum_no_validation_counterexample :
  exists rect : Frustum,
    compute_camera_viewing_frustum camera_out_of_range (-1) false = Ok rect.
Proof.
  pose proof mm_to_inch_pos as Hmm.
  eexists. apply compute_camera_viewing_frustum_ok.
  - cbn. lra.
  - apply film_fit_scaling_unknown. cbn.
    intros [H | [H | [H | H]]]; discriminate H.
Qed.

(** C2, amended: [compute_camera_viewing_frustum] validates nothing.  It
    fails only by dividing by zero: exactly when the focal length is zero or
    the aspect the selected film-fit branch divides by is zero; the signs of
    the apertures, near clip, focal length, camera scale and window aspect
    are never inspected.  A film fit that is none of the four modes is not an
    error: the scales stay 1 and the translations 0. *)
Theorem frustum_fails_only_dividing_by_zero
  (camera : Camera) (window_aspect : R) (apply_overscan : bool) :
  ((exists e,
      compute_camera_viewing_frustum camera window_aspect apply_overscan
      = Raise e)
   <-> focalLength camera = 0 \/ fit_divisor_is_zero camera window_aspect)
  /\ (~ known_film_fit (filmFit camera) ->
      focalLength camera <> 0 ->
      let focal_to_near :=
        nearClipPlane camera / (focalLength camera * mm_to_inch)
        * cameraScale camera in
      let o := if apply_overscan then overscan camera else 1 in
      film_fit_scaling camera window_aspect = Ok (1, 1, 0, 0)
      /\ compute_camera_viewing_frustum camera window_aspect apply_overscan =
         Ok (focal_to_near * (-0.5 * horizontalFilmAperture camera * o
                              + horizontalFilmOffset camera),
             focal_to_near * (0.5 * horizontalFilmAperture camera * o
                              + horizontalFilmOffset camera),
             focal_to_near * (-0.5 * verticalFilmAperture camera * o
                              + verticalFilmOffset camera),
             focal_to_near * (0.5 * verticalFilmAperture camera * o
                              + verticalFilmOffset camera))).
Proof.
  split; [apply compute_camera_viewing_frustum_raise_iff |].
  intros Hk Hf focal_to_near o.
  pose proof (film_fit_scaling_unknown camera window_aspect Hk) as Hs.
  split; [exact Hs |].
  rewrite (compute_camera_viewing_frustum_ok camera window_aspect apply_overscan
             1 1 0 0 Hf Hs).
  fold focal_to_near o. frustum_eq.
Qed.

Lemma frustum_fails_only_dividing_by_zero_witness :
  exists rect : Frustum,
    film_fit_scaling camera_out_of_range 0 = Ok (1, 1, 0, 0)
    /\ compute_camera_viewing_frustum camera_out_of_range 0 true = Ok rect.
Proof.
  pose proof mm_to_inch_pos as Hmm.
  eexists.
  apply (proj2
           (frustum_fails_only_dividing_by_zero camera_out_of_range 0 true)).
  - cbn. intros [H | [H | [H | H]]]; discriminate H.
  - cbn. lra.
Defined.

(** ** C3: the sides of the frustum are ordered *)

Lemma film_fit_scaling_positive (camera : Camera) (window_aspect : R) :
  0 < aspectRatio camera ->
  0 < window_aspect ->
  exists scale_x scale_y translate_x translate_y : R,
    film_fit_scaling camera window_aspect
    = Ok (scale_x, scale_y, translate_x, translate_y)
    /\ 0 < scale_x /\ 0 < scale_y.
Proof.
  intros Hfa Hwa.
  assert (H1 : 0 < window_aspect / aspectRatio camera)
    by (apply Rdiv_lt_0_compat; assumption).
  assert (H2 : 0 < aspectRatio camera / window_aspect)
    by (apply Rdiv_lt_0_compat; assumption).
  film_fit_cases camera;
    repeat match goal with
      | |- context [py_lt ?a ?b] => destruct (py_lt a b)
      | |- context [py_gt ?a ?b] => destruct (py_gt a b)
      | |- context [py_div ?a ?b] => rewrite (py_div_ok a b) by lra; cbn [bind]
      end;
    do 4 eexists; (split; [reflexivity | split; lra]).
Qed.

(** C3, as stated, fails.  The 2 x 1 camera is physically valid and its
    overscan 0 is in the specified range, yet with the overscan applied the
    rectangle collapses: [left = right] and [bottom = top]. *)
Lemma frustum_overscan_zero_counterexample :
  exists l r b t : R,
    compute_camera_viewing_frustum
      (with_overscan (camera_2x1 "fill") 0) 2 true = Ok (l, r, b, t)
    /\ l = r /\ b = t.
Proof.
  pose proof mm_to_inch_pos as Hmm.
  do 4 eexists. split.
  - apply compute_camera_viewing_frustum_ok.
    + cbn. lra.
    + unfold film_fit_scaling. cbn. rewrite py_lt_false by lra.
      rewrite py_div_ok by lra. reflexivity.
  - cbn. split; ring.
Qed.

(** C3, amended: when the apertures, the focal length, the near clip, the
    camera scale, the film aspect and the window aspect are all positive, and
    the overscan is positive whenever it is applied, the frustum is returned
    and satisfies [left < right] and [bottom < top], whatever the film fit. *)
Theorem frustum_rect_ordered
  (camera : Camera) (window_aspect : R) (apply_overscan : bool) :
  0 < horizontalFilmAperture camera ->
  0 < verticalFilmAperture camera ->
  0 < focalLength camera ->
  0 < nearClipPlane camera ->
  0 < cameraScale camera ->
  0 < aspectRatio camera ->
  0 < window_aspect ->
  (apply_overscan = true -> 0 < overscan camera) ->
  exists l r b t : R,
    compute_camera_viewing_frustum camera window_aspect apply_overscan
    = Ok (l, r, b, t)
    /\ l < r /\ b < t.
Proof.
  intros Hx Hy Hf Hn Hc Hfa Hwa Ho.
  pose proof mm_to_inch_pos as Hmm.
  destruct (film_fit_scaling_positive camera window_aspect Hfa Hwa)
    as (sx & sy & tx & ty & Hs & Hsx & Hsy).
  do 4 eexists. split.
  - apply compute_camera_viewing_frustum_ok; [lra | exact Hs].
  - set (o := if apply_overscan then overscan camera else 1).
    assert (Hopos : 0 < o).
    { unfold o. destruct apply_overscan; [now apply Ho | lra]. }
    set (f := nearClipPlane camera / (focalLength camera * mm_to_inch)
              * cameraScale camera).
    assert (Hfpos : 0 < f).
    { unfold f. apply Rmult_lt_0_compat; [| assumption].
      apply Rdiv_lt_0_compat; [assumption | nra]. }
    assert (Hxs : 0 < horizontalFilmAperture camera * (sx * o)) by
      (apply Rmult_lt_0_compat; [assumption | nra]).
    assert (Hys : 0 < verticalFilmAperture camera * (sy * o)) by
      (apply Rmult_lt_0_compat; [assumption | nra]).
    split; apply Rmult_lt_compat_l; try assumption; lra.
Qed.

Lemma frustum_rect_ordered_witness :
  exists l r b t : R,
    compute_camera_viewing_frustum (camera_2x1 "horizontal") 1 true
    = Ok (l, r, b, t)
    /\ l < r /\ b < t.
Proof.
  apply (frustum_rect_ordered (camera_2x1 "horizontal") 1 true);
    simpl; lra.
Defined.

(** ** C4: Fill with a window of the film's aspect *)

Lemma fill_scaling_matching_aspect (camera : Camera) (window_aspect : R) :
  filmFit camera = "fill"%string ->
  window_aspect = aspectRatio camera ->
  window_aspect <> 0 ->
  film_fit_scaling camera window_aspect = Ok (1, 1, 0, 0).
Proof.
  intros Hfit Heq Hnz. unfold film_fit_scaling. rewrite Hfit. cbn.
  rewrite py_lt_false by lra. rewrite <- Heq.
  rewrite py_div_ok by assumption. cbn [bind].
  replace (window_aspect / window_aspect) with 1 by (field; assumption).
  reflexivity.
Qed.

(** C4, as stated, fails.  With a horizontal film offset of 1 inch and a
    window of the film's aspect, the Fill frustum of the 2 x 1 camera is not
    symmetric: [left] is not [- right]. *)
Lemma fill_offset_asymmetric_counterexample :
  exists l r b t : R,
    compute_camera_viewing_frustum
      (with_film_offset (camera_2x1 "fill") 1 0) 2 false = Ok (l, r, b, t)
    /\ l <> - r.
Proof.
  pose proof mm_to_inch_pos as Hmm.
  do 4 eexists. split.
  - apply compute_camera_viewing_frustum_ok; [cbn; lra |].
    apply fill_scaling_matching_aspect; [reflexivity | reflexivity | lra].
  - cbn.
    assert (Hf : 0 < 1 / (35 * mm_to_inch) * 1).
    { apply Rmult_lt_0_compat; [apply Rdiv_lt_0_compat |]; lra. }
    nra.
Qed.

(** C4, amended: for the Fill fit, a non-zero window aspect equal to the
    film aspect and a non-zero focal length, the scales are 1 and the
    translations 0, and the frustum is centred on the film offset:
    [left + right = 2 * focal_to_near * offset_x] and
    [bottom + top = 2 * focal_to_near * offset_y], with or without the
    overscan.  It is symmetric ([left = - right], [bottom = - top]) along
    each axis whose film offset is zero. *)
Theorem fill_matching_aspect_centred
  (camera : Camera) (window_aspect : R) (apply_overscan : bool) :
  filmFit camera = "fill"%string ->
  window_aspect = aspectRatio camera ->
  window_aspect <> 0 ->
  focalLength camera <> 0 ->
  let focal_to_near :=
    nearClipPlane camera / (focalLength camera * mm_to_inch)
    * cameraScale camera in
  film_fit_scaling camera window_aspect = Ok (1, 1, 0, 0)
  /\ exists l r b t : R,
       compute_camera_viewing_frustum camera window_aspect apply_overscan
       = Ok (l, r, b, t)
       /\ l + r = 2 * focal_to_near * horizontalFilmOffset camera
       /\ b + t = 2 * focal_to_near * verticalFilmOffset camera
       /\ (horizontalFilmOffset camera = 0 -> l = - r)
       /\ (verticalFilmOffset camera = 0 -> b = - t).
Proof.
  intros Hfit Heq Hnz Hf focal_to_near.
  pose proof (fill_scaling_matching_aspect camera window_aspect Hfit Heq Hnz)
    as Hs.
  split; [exact Hs |].
  do 4 eexists. split.
  - apply compute_camera_viewing_frustum_ok; [exact Hf | exact Hs].
  - fold focal_to_near. quotients.
    repeat split; try (intros ->); field.
Qed.

Lemma fill_matching_aspect_centred_witness :
  film_fit_scaling (camera_2x1 "fill") 2 = Ok (1, 1, 0, 0)
  /\ exists l r b t : R,
       compute_camera_viewing_frustum (camera_2x1 "fill") 2 false
       = Ok (l, r, b, t)
       /\ l + r = 2 * (1 / (35 * mm_to_inch) * 1) * 0
       /\ b + t = 2 * (1 / (35 * mm_to_inch) * 1) * 0
       /\ (0 = 0 -> l = - r)
       /\ (0 = 0 -> b = - t).
Proof.
  apply (fill_matching_aspect_centred (camera_2x1 "fill") 2 false).
  - reflexivity.
  - reflexivity.
  - lra.
  - simpl. lra.
Defined.

(** ** C5: the four cases of the Vertical fit *)

Lemma div_by_ratio_ok (n a b : R) :
  a <> 0 -> b <> 0 -> div_by_ratio n a b = Ok (n * (b / a)).
Proof.
  intros Ha Hb. unfold div_by_ratio. rewrite py_div_ok by assumption.
  cbn [bind]. rewrite py_div_ok.
  - f_equal. field. split; assumption.
  - apply Rmult_integral_contrapositive_currified;
      [assumption | now apply Rinv_neq_0_compat].
Qed.

Lemma vertical_example_1620 :
  get_camera_resolution_fov_ratio
    (render_globals 1920 1080 false) (camera_3x2 "vertical")
  = Ok (1620%Z, 1080%Z, 1).
Proof.
  unfold get_camera_resolution_fov_ratio. cbn.
  rewrite div_by_ratio_ok by lra. cbn [bind].
  replace (1080 * (1.5 / 1)) with (IZR 1620) by lra.
  rewrite py_lt_true by lra. cbn. rewrite py_int_IZR. reflexivity.
Qed.

Section VerticalBinary64.
Import PrimFloat F64.
Local Open Scope f64_scope.

Lemma int_div_by_ratio_inv (n : Z) (a b x : float) :
  int_div_by_ratio n a b = Ok x ->
  exists numerator : float,
    float_of_int n = Ok numerator /\ x = (numerator / (a / b))%float.
Proof.
  unfold int_div_by_ratio, py_div. intros H.
  destruct (b =? 0)%float; [discriminate |]. cbn [bind] in H.
  destruct (float_of_int n) as [numerator | e]; [| discriminate].
  cbn [bind] in H.
  destruct (a / b =? 0)%float; [discriminate |].
  injection H as <-. now exists numerator.
Qed.

(** C5, as stated, fails.  A 1920 x 1080 render through a 14 x 9 film gate,
    gate enforced: [cam_h * (aperture_x / aperture_y)] is 1680, in exact
    arithmetic and in binary64 alike, and is less than 1920, so the claim
    gives the width 1680.  The source divides 1080 by [9.0 / 14.0], which in
    binary64 is 1679.9999999999998, and [int] makes it 1679. *)
Lemma vertical_floor_counterexample :
  (forall atan : float -> float,
     get_camera_resolution_fov_ratio atan
       (render_globals 1920 1080 false) (sample_camera 14 9 "vertical")
     = Ok (1679%Z, 1080%Z, 1%float))
  /\ (1080 * (14 / 9) < 1920)%R
  /\ Int_part (1080 * (14 / 9))%R = 1680%Z
  /\ (height <- float_of_int 1080 ;; py_int (height * (14 / 9))%float)
     = Ok 1680%Z.
Proof.
  split; [intros atan; vm_compute; reflexivity |].
  split; [lra |].
  split; [| vm_compute; reflexivity].
  symmetry. apply Int_part_spec. lra.
Qed.

(** C5, amended: in the Vertical fit, [new_width] is the binary64 value of
    [float(cam_h) / (aperture_y / aperture_x)], which can fall just below
    the exact [cam_h * (aperture_x / aperture_y)].  Exactly when
    [new_width < cam_w] and the film gate is enforced, the result is
    [(int(new_width), cam_h, 1.0)], [int] truncating toward zero; in the
    other three cases the width is the render width and [fov_ratio] is the
    horizontal / vertical field of view probed at [(new_width, cam_h)].  A
    1920 x 1080 render through a film gate of 1.5 by 1.0, gate enforced,
    gives (1620, 1080, 1.0). *)
Theorem vertical_gate_cases_binary64 :
  (forall (atan : float -> float) (rg : RenderGlobals) (camera : Camera)
          (cam_w cam_h : Z) (new_width : float),
     filmFit camera = "vertical"%string ->
     camera_start_resolution (get_render_image_resolution rg) = (cam_w, cam_h) ->
     int_div_by_ratio cam_h
       (verticalFilmAperture camera) (horizontalFilmAperture camera)
       = Ok new_width ->
     (exists height : float,
        float_of_int cam_h = Ok height
        /\ new_width
           = (height / (verticalFilmAperture camera
                        / horizontalFilmAperture camera))%float)
     /\ (py_lt_int new_width cam_w = true /\ ignoreFilmGate rg = false ->
         get_camera_resolution_fov_ratio atan rg camera =
           (cam_width <- py_int new_width ;;
            Ok (cam_width, cam_h, 1%float)))
     /\ (~ (py_lt_int new_width cam_w = true /\ ignoreFilmGate rg = false) ->
         get_camera_resolution_fov_ratio atan rg camera =
           ('(hfov, vfov) <-
              get_camera_port_field_of_view atan camera
                (PyFloat new_width) (PyInt cam_h) ;;
            fov_ratio <- py_div hfov vfov ;;
            Ok (cam_w, cam_h, fov_ratio))))
  /\ (forall atan : float -> float,
        get_camera_resolution_fov_ratio atan
          (render_globals 1920 1080 false) (sample_camera 1.5 1 "vertical")
        = Ok (1620%Z, 1080%Z, 1%float)).
Proof.
  split; [| intros atan; vm_compute; reflexivity].
  intros atan rg camera cam_w cam_h new_width Hfit Hres Hnw.
  split; [now apply int_div_by_ratio_inv |].
  unfold get_camera_resolution_fov_ratio, will_render_ignore_film_gate.
  rewrite Hres, Hfit. cbn [String.eqb Ascii.eqb Bool.eqb].
  rewrite Hnw. cbn [bind]. unfold probe_fov_ratio.
  split.
  - intros [Hlt Hgate]. rewrite Hlt, Hgate. reflexivity.
  - intros Hnot.
    destruct (py_lt_int new_width cam_w); destruct (ignoreFilmGate rg);
      cbn [andb negb];
      try (exfalso; apply Hnot; split; reflexivity);
      destruct (get_camera_port_field_of_view atan camera _ _)
        as [[hfov vfov] | e]; reflexivity.
Qed.

Lemma vertical_gate_cases_binary64_witness :
  int_div_by_ratio 1080 9 14 = Ok 0x1.a3fffffffffffp+10%float
  /\ py_lt_int 0x1.a3fffffffffffp+10 1920 = true
  /\ forall atan : float -> float,
       get_camera_resolution_fov_ratio atan
         (render_globals 1920 1080 false) (sample_camera 14 9 "vertical")
       = (cam_width <- py_int 0x1.a3fffffffffffp+10 ;;
          Ok (cam_width, 1080%Z, 1%float)).
Proof.
  assert (Hnw : int_div_by_ratio 1080 9 14 = Ok 0x1.a3fffffffffffp+10%float)
    by (vm_compute; reflexivity).
  assert (Hlt : py_lt_int 0x1.a3fffffffffffp+10 1920 = true)
    by (vm_compute; reflexivity).
  split; [exact Hnw |]. split; [exact Hlt |].
  intros atan.
  apply (proj1 (proj2
           (proj1 vertical_gate_cases_binary64 atan
              (render_globals 1920 1080 false) (sample_camera 14 9 "vertical")
              1920%Z 1080%Z 0x1.a3fffffffffffp+10%float eq_refl eq_refl Hnw))).
  split; [exact Hlt | reflexivity].
Defined.

End VerticalBinary64.

(** ** C6: the camera resolution never exceeds the render resolution *)

Lemma div_by_ratio_inv (n a b x : R) :
  div_by_ratio n a b = Ok x -> a <> 0 /\ b <> 0 /\ x = n * (b / a).
Proof.
  intros H.
  destruct (Req_dec_T b 0) as [Hb | Hb].
  { unfold div_by_ratio in H. rewrite Hb, py_div_zero in H. discriminate. }
  destruct (Req_dec_T a 0) as [Ha | Ha].
  { unfold div_by_ratio in H. rewrite py_div_ok in H by assumption.
    cbn [bind] in H. rewrite Ha in H. unfold Rdiv in H at 1.
    rewrite Rmult_0_l, py_div_zero in H. discriminate. }
  rewrite div_by_ratio_ok in H by assumption.
  injection H as <-. auto.
Qed.

(** The Overscan branch that replaces the height: [new_height] is at most
    the height when [new_width] is at least the width. *)
Lemma overscan_new_height_le (ax ay : R) (cam_w cam_h : Z) :
  ax <> 0 -> ay <> 0 ->
  (0 < ax /\ 0 < ay) \/ (0 < cam_w /\ 0 < cam_h)%Z ->
  ~ IZR cam_h * (ax / ay) < IZR cam_w ->
  IZR cam_w * (ay / ax) <= IZR cam_h.
Proof.
  intros Hx Hy Hpos Hnlt.
  assert (Hinv : ay / ax = / (ax / ay)) by (field; split; assumption).
  assert (Hr : ax / ay <> 0).
  { apply Rmult_integral_contrapositive_currified;
      [assumption | now apply Rinv_neq_0_compat]. }
  rewrite Hinv. set (r := ax / ay) in *.
  assert (Hrpos : 0 < r).
  { destruct Hpos as [[H1 H2] | [H1 H2]].
    - unfold r. now apply Rdiv_lt_0_compat.
    - apply IZR_lt in H1, H2.
      destruct (Rtotal_order r 0) as [Hneg | [Hz | Hp]];
        [exfalso; nra | contradiction | assumption]. }
  apply Rmult_le_reg_r with (r := r); [assumption |].
  rewrite Rmult_assoc, Rinv_l by assumption. lra.
Qed.

(** C6: whenever [get_camera_resolution_fov_ratio] returns, the camera width
    and height are at most the width and height it started from (the render
    resolution, or the 320 x 240 default), for every film fit and both values
    of the ignore-film-gate flag, on positive apertures or a positive
    resolution. *)
Theorem camera_resolution_within_render
  (rg : RenderGlobals) (camera : Camera) (render_w render_h : Z)
  (camera_w camera_h : Z) (fov_ratio : R) :
  camera_start_resolution (get_render_image_resolution rg)
    = (render_w, render_h) ->
  (0 < horizontalFilmAperture camera /\ 0 < verticalFilmAperture camera)
  \/ (0 < render_w /\ 0 < render_h)%Z ->
  get_camera_resolution_fov_ratio rg camera
    = Ok (camera_w, camera_h, fov_ratio) ->
  (camera_w <= render_w)%Z /\ (camera_h <= render_h)%Z.
Proof.
  intros Hres Hpos Hrun.
  unfold get_camera_resolution_fov_ratio, will_render_ignore_film_gate in Hrun.
  rewrite Hres in Hrun. cbn zeta in Hrun.
  destruct (filmFit camera =? "horizontal")%string.
  { destruct (ignoreFilmGate rg); cbn in Hrun.
    - destruct (probe_fov_ratio camera _ _); [| discriminate].
      cbn in Hrun. injection Hrun as <- <- _. lia.
    - destruct (div_by_ratio _ _ _) as [new_height |]; [| discriminate].
      cbn in Hrun.
      destruct (py_lt_spec new_height (IZR render_h)) as [Hlt | Hge];
        cbn in Hrun;
        (destruct (probe_fov_ratio camera _ _); [| discriminate]);
        cbn in Hrun; injection Hrun as <- <- _.
      + split; [lia | apply py_int_le; lra].
      + lia. }
  destruct (filmFit camera =? "vertical")%string.
  { destruct (div_by_ratio _ _ _) as [new_width |]; [| discriminate].
    cbn in Hrun.
    destruct (py_lt_spec new_width (IZR render_w)) as [Hlt | Hge];
      destruct (ignoreFilmGate rg); cbn in Hrun;
      try (destruct (probe_fov_ratio camera _ _); [| discriminate];
           cbn in Hrun);
      injection Hrun as <- <- _; try lia.
    split; [apply py_int_le; lra | lia]. }
  destruct (filmFit camera =? "overscan")%string.
  { destruct (div_by_ratio (IZR render_w) _ _) as [new_height |] eqn:Hnh;
      [| discriminate].
    cbn in Hrun.
    destruct (div_by_ratio (IZR render_h) _ _) as [new_width |] eqn:Hnw;
      [| discriminate].
    cbn in Hrun.
    apply div_by_ratio_inv in Hnh. destruct Hnh as (Hx & Hy & ->).
    apply div_by_ratio_inv in Hnw. destruct Hnw as (_ & _ & ->).
    destruct (py_lt_spec (IZR render_h
                * (horizontalFilmAperture camera / verticalFilmAperture camera))
                (IZR render_w)) as [Hlt | Hge];
      destruct (ignoreFilmGate rg); cbn in Hrun;
      try (destruct (probe_fov_ratio camera _ _); [| discriminate];
           cbn in Hrun);
      injection Hrun as <- <- _; try lia.
    - split; [apply py_int_le; lra | lia].
    - split; [lia |]. apply py_int_le.
      now apply overscan_new_height_le. }
  destruct (filmFit camera =? "fill")%string.
  { destruct (div_by_ratio _ _ _) as [new_width |]; [| discriminate].
    cbn in Hrun.
    destruct (py_ge new_width (IZR render_w));
      (destruct (probe_fov_ratio camera _ _); [| discriminate]);
      cbn in Hrun; injection Hrun as <- <- _; lia. }
  injection Hrun as <- <- _. lia.
Qed.

Lemma camera_resolution_within_render_witness :
  get_camera_resolution_fov_ratio
    (render_globals 1920 1080 false) (camera_3x2 "vertical")
  = Ok (1620%Z, 1080%Z, 1)
  /\ (1620 <= 1920)%Z /\ (1080 <= 1080)%Z.
Proof.
  split; [exact vertical_example_1620 |].
  apply (camera_resolution_within_render
           (render_globals 1920 1080 false) (camera_3x2 "vertical")
           1920%Z 1080%Z 1620%Z 1080%Z 1).
  - reflexivity.
  - right. split; reflexivity.
  - exact vertical_example_1620.
Defined.

(** ** C7: the field of view of a port *)

(** C7: [get_camera_port_field_of_view] fails with [ZeroDivisionError] on a
    zero height.  On a non-zero height it takes the frustum of the window
    aspect [width / height] without the overscan, and (the near clip being
    non-zero) returns [2 * atan (((right - left) / 2) / near)] and
    [2 * atan (((top - bottom) / 2) / near)]; every result it returns has
    that form.  The overscan of the camera never changes the result. *)
Theorem port_field_of_view_formula
  (camera : Camera) (port_width port_height : R) :
  (port_height = 0 ->
   get_camera_port_field_of_view camera port_width port_height
   = Raise ZeroDivisionError)
  /\ (port_height <> 0 ->
      forall l r b t : R,
        compute_camera_viewing_frustum camera (port_width / port_height) false
        = Ok (l, r, b, t) ->
        nearClipPlane camera <> 0 ->
        get_camera_port_field_of_view camera port_width port_height
        = Ok (2 * atan (((r - l) / 2) / nearClipPlane camera),
              2 * atan (((t - b) / 2) / nearClipPlane camera)))
  /\ (port_height <> 0 ->
      forall horizontal vertical : R,
        get_camera_port_field_of_view camera port_width port_height
        = Ok (horizontal, vertical) ->
        exists l r b t : R,
          compute_camera_viewing_frustum camera (port_width / port_height) false
          = Ok (l, r, b, t)
          /\ horizontal = 2 * atan (((r - l) / 2) / nearClipPlane camera)
          /\ vertical = 2 * atan (((t - b) / 2) / nearClipPlane camera))
  /\ (forall o : R,
        get_camera_port_field_of_view (with_overscan camera o)
          port_width port_height
        = get_camera_port_field_of_view camera port_width port_height).
Proof.
  assert (Hform : forall x n : R, atan (x * 0.5 / n) * 2 = 2 * atan (x / 2 / n)).
  { intros x n. rewrite Rmult_comm. do 2 f_equal. lra. }
  split; [| split; [| split]].
  - intros ->. unfold get_camera_port_field_of_view.
    now rewrite py_div_zero.
  - intros Hh l r b t Hfr Hn.
    rewrite (get_camera_port_field_of_view_ok camera port_width port_height
               l r b t Hh Hn Hfr).
    now rewrite !Hform.
  - intros Hh horizontal vertical Hrun.
    unfold get_camera_port_field_of_view in Hrun.
    rewrite py_div_ok in Hrun by assumption. cbn [bind] in Hrun.
    destruct (compute_camera_viewing_frustum camera _ false)
      as [[[[l r] b] t] | e]; [| discriminate].
    cbn [bind] in Hrun.
    destruct (Req_dec_T (nearClipPlane camera) 0) as [Hn | Hn].
    { rewrite Hn, py_div_zero in Hrun. discriminate. }
    rewrite !py_div_ok in Hrun by assumption. cbn [bind] in Hrun.
    injection Hrun as <- <-.
    exists l, r, b, t. rewrite !Hform. auto.
  - intros o. reflexivity.
Qed.

Lemma port_field_of_view_formula_witness :
  exists l r b t : R,
    compute_camera_viewing_frustum (camera_2x1 "fill") (480 / 240) false
    = Ok (l, r, b, t)
    /\ get_camera_port_field_of_view (camera_2x1 "fill") 480 240
       = Ok (2 * atan (((r - l) / 2) / 1), 2 * atan (((t - b) / 2) / 1)).
Proof.
  pose proof mm_to_inch_pos as Hmm.
  assert (Hfocal : focalLength (camera_2x1 "fill") <> 0) by (simpl; lra).
  assert (Hscale : film_fit_scaling (camera_2x1 "fill") (480 / 240)
                   = Ok (1, 2 / (480 / 240), 0, 0))
    by (apply fill_scaling_2x1_wide; lra).
  pose proof (compute_camera_viewing_frustum_ok (camera_2x1 "fill")
                (480 / 240) false _ _ _ _ Hfocal Hscale) as Hfr.
  cbv zeta in Hfr.
  do 4 eexists. split; [exact Hfr |].
  apply (proj1 (proj2 (port_field_of_view_formula (camera_2x1 "fill") 480 240))).
  - lra.
  - exact Hfr.
  - simpl. lra.
Defined.

(** ** C8: points in the letterbox or pillarbox margins *)

Lemma Qlt_bool_iff (a b : Q) : Qlt_bool a b = true <-> (a < b)%Q.
Proof.
  unfold Qlt_bool. rewrite negb_true_iff, <- not_true_iff_false, Qle_bool_iff.
  split; [apply Qnot_le_lt | apply Qlt_not_le].
Qed.

(** One axis of the test: the margin check of lines 221-225 (or 228-232). *)
Lemma margin_check_iff (py : PyVersion) (p : Q) (render camera : Z) :
  let margin := int_div_2 py (render - camera) in
  (if negb (render =? camera)%Z
   then if Qlt_bool p margin || Qle_bool (inject_Z render - margin) p
        then true else false
   else false) = true
  <-> render <> camera
      /\ ((p < margin)%Q \/ (inject_Z render - margin <= p)%Q).
Proof.
  intros margin.
  destruct (Z.eqb_spec render camera) as [Heq | Hne]; cbn.
  - split; [discriminate | intros [H _]; contradiction].
  - destruct (Qlt_bool p margin || Qle_bool (inject_Z render - margin) p)
      eqn:Hb.
    + apply orb_true_iff in Hb. rewrite Qlt_bool_iff, Qle_bool_iff in Hb.
      split; [intros _; split; assumption | reflexivity].
    + split; [discriminate |]. intros [_ H].
      rewrite <- Qlt_bool_iff, <- Qle_bool_iff, <- orb_true_iff in H.
      congruence.
Qed.

(** C8: [is_point_clipped] is true exactly when the vertical check fires
    (the heights differ and, with [margin_y = (render_h - camera_h) / 2],
    [y < margin_y] or [y >= render_h - margin_y]) or the horizontal check
    fires (the same on the widths); the division by 2 is the one of the
    interpreter, exact under Python 3.  The point (0, 0) of a 1920 x 1080
    render is clipped by a 1620 x 1080 camera. *)
Theorem is_point_clipped_iff
  (py : PyVersion) (x y : Q) (render_w render_h camera_w camera_h : Z) :
  let margin_y := int_div_2 py (render_h - camera_h) in
  let margin_x := int_div_2 py (render_w - camera_w) in
  (is_point_clipped py x y (render_w, render_h) (camera_w, camera_h) = true
   <-> (render_h <> camera_h
        /\ ((y < margin_y)%Q \/ (inject_Z render_h - margin_y <= y)%Q))
       \/ (render_w <> camera_w
           /\ ((x < margin_x)%Q \/ (inject_Z render_w - margin_x <= x)%Q)))
  /\ (int_div_2 Python3 (render_h - camera_h)
      == (inject_Z render_h - inject_Z camera_h) / 2)%Q
  /\ is_point_clipped py 0 0 (1920, 1080)%Z (1620, 1080)%Z = true.
Proof.
  intros margin_y margin_x. split; [| split].
  - pose proof (margin_check_iff py y render_h camera_h) as Hy.
    pose proof (margin_check_iff py x render_w camera_w) as Hx.
    cbv zeta in Hy, Hx. subst margin_y margin_x. rewrite <- Hy, <- Hx.
    unfold is_point_clipped. cbn [fst snd].
    destruct (negb (render_h =? camera_h)%Z);
      destruct (negb (render_w =? camera_w)%Z);
      repeat match goal with
        | |- context [if ?c then true else false] => destruct c
        end;
      intuition congruence.
  - unfold int_div_2. unfold Qeq, Qdiv, Qminus, Qplus, Qmult, Qinv, Qopp, inject_Z.
    cbn. lia.
  - destruct py; reflexivity.
Qed.

(** ** C9: the Fill branch never reads the film-gate flag *)

(** C9: two runs on the same camera with the Fill fit and the same
    resolution nodes return the same result (or the same failure), whatever
    the two values of [ignoreFilmGate]. *)
Theorem fill_ignores_film_gate (rg1 rg2 : RenderGlobals) (camera : Camera) :
  filmFit camera = "fill"%string ->
  resolution rg1 = resolution rg2 ->
  get_camera_resolution_fov_ratio rg1 camera
  = get_camera_resolution_fov_ratio rg2 camera.
Proof.
  intros Hfit Hres.
  unfold get_camera_resolution_fov_ratio, get_render_image_resolution.
  rewrite Hfit, Hres. reflexivity.
Qed.

Lemma fill_ignores_film_gate_witness :
  get_camera_resolution_fov_ratio
    (render_globals 1920 1080 true) (camera_3x2 "fill")
  = get_camera_resolution_fov_ratio
      (render_globals 1920 1080 false) (camera_3x2 "fill").
Proof.
  apply (fill_ignores_film_gate
           (render_globals 1920 1080 true) (render_globals 1920 1080 false)
           (camera_3x2 "fill")).
  - reflexivity.
  - reflexivity.
Defined.

(** ** C10: the 320 x 240 default *)

(** C10: the starting resolution is (320, 240) whenever the retrieved width
    or height is [None] or 0, and the retrieved pair otherwise.  So
    [get_camera_resolution_fov_ratio] on a resolution node with a zero width
    or height (such as 0 x 1080), or without any resolution node, runs as it
    does on a 320 x 240 node: the supplied pair is replaced as a whole. *)
Theorem default_resolution_on_falsy :
  (forall w h : option Z,
     w = None \/ w = Some 0%Z \/ h = None \/ h = Some 0%Z ->
     camera_start_resolution (w, h) = (320, 240)%Z)
  /\ (forall w h : Z,
        w <> 0%Z -> h <> 0%Z ->
        camera_start_resolution (Some w, Some h) = (w, h))
  /\ (forall (w h : Z) (nodes : list ResolutionNode) (gate : bool)
             (camera : Camera),
        w = 0%Z \/ h = 0%Z ->
        get_camera_resolution_fov_ratio
          {| resolution := {| width := w; height := h |} :: nodes;
             ignoreFilmGate := gate |} camera
        = get_camera_resolution_fov_ratio (render_globals 320 240 gate) camera)
  /\ (forall (gate : bool) (camera : Camera),
        get_camera_resolution_fov_ratio
          {| resolution := []; ignoreFilmGate := gate |} camera
        = get_camera_resolution_fov_ratio (render_globals 320 240 gate) camera)
  /\ camera_start_resolution (Some 0%Z, Some 1080%Z) = (320, 240)%Z.
Proof.
  split; [| split; [| split; [| split]]].
  - intros w h [-> | [-> | [-> | ->]]]; unfold camera_start_resolution; cbn;
      try reflexivity; destruct w as [[| p | p] |]; reflexivity.
  - intros w h Hw Hh. unfold camera_start_resolution. cbn.
    apply Z.eqb_neq in Hw, Hh. now rewrite Hw, Hh.
  - intros w h nodes gate camera Hz.
    unfold get_camera_resolution_fov_ratio, get_render_image_resolution.
    cbn [resolution render_globals width height].
    replace (camera_start_resolution (Some w, Some h)) with (320, 240)%Z;
      [reflexivity |].
    unfold camera_start_resolution. cbn.
    destruct Hz as [-> | ->]; cbn; [reflexivity |].
    now rewrite orb_true_r.
  - intros gate camera. reflexivity.
  - reflexivity.
Qed.

Lemma default_resolution_on_falsy_witness :
  get_camera_resolution_fov_ratio
    {| resolution := [ {| width := 0; height := 1080 |} ];
       ignoreFilmGate := false |} (camera_3x2 "vertical")
  = get_camera_resolution_fov_ratio
      (render_globals 320 240 false) (camera_3x2 "vertical").
Proof.
  apply (proj1 (proj2 (proj2 default_resolution_on_falsy))).
  left. reflexivity.
Defined.

(** * Further properties of the frustum *)

(** A returned frustum, read backwards: the focal length is not zero, the
    film fit gave scales and translations, and the four sides are the ones of
    lines 63-66. *)
Lemma compute_camera_viewing_frustum_inv
  (camera : Camera) (window_aspect : R) (apply_overscan : bool)
  (l r b t : R) :
  compute_camera_viewing_frustum camera window_aspect apply_overscan
  = Ok (l, r, b, t) ->
  let focal_to_near :=
    nearClipPlane camera / (focalLength camera * mm_to_inch) * cameraScale camera in
  let o := if apply_overscan then overscan camera else 1 in
  focalLength camera <> 0
  /\ exists scale_x scale_y translate_x translate_y : R,
       film_fit_scaling camera window_aspect
       = Ok (scale_x, scale_y, translate_x, translate_y)
       /\ l = focal_to_near * (-0.5 * horizontalFilmAperture camera * (scale_x * o)
                               + horizontalFilmOffset camera + translate_x)
       /\ r = focal_to_near * (0.5 * horizontalFilmAperture camera * (scale_x * o)
                               + horizontalFilmOffset camera + translate_x)
       /\ b = focal_to_near * (-0.5 * verticalFilmAperture camera * (scale_y * o)
                               + verticalFilmOffset camera + translate_y)
       /\ t = focal_to_near * (0.5 * verticalFilmAperture camera * (scale_y * o)
                               + verticalFilmOffset camera + translate_y).
Proof.
  intros Hrun focal_to_near o.
  assert (Hf : focalLength camera <> 0).
  { intros Hz.
    assert (Hraise : exists e,
               compute_camera_viewing_frustum camera window_aspect apply_overscan
               = Raise e)
      by (apply compute_camera_viewing_frustum_raise_iff; now left).
    destruct Hraise as [e He]. congruence. }
  split; [exact Hf |].
  destruct (film_fit_scaling camera window_aspect)
    as [[[[sx sy] tx] ty] | e] eqn:Hs.
  - exists sx, sy, tx, ty. split; [reflexivity |].
    pose proof (compute_camera_viewing_frustum_ok camera window_aspect
                  apply_overscan sx sy tx ty Hf Hs) as Hok.
    cbv zeta in Hok. rewrite Hrun in Hok.
    injection Hok as -> -> -> ->. auto.
  - exfalso.
    assert (Hraise : exists e,
               compute_camera_viewing_frustum camera window_aspect apply_overscan
               = Raise e).
    { apply compute_camera_viewing_frustum_raise_iff. right.
      apply film_fit_scaling_raise_iff. now exists e. }
    destruct Hraise as [e' He']. congruence.
Qed.

(** Which translation each film fit can set. *)
Lemma film_fit_scaling_translate
  (camera : Camera) (window_aspect scale_x scale_y translate_x translate_y : R) :
  film_fit_scaling camera window_aspect
  = Ok (scale_x, scale_y, translate_x, translate_y) ->
  (filmFit camera <> "vertical"%string -> translate_x = 0)
  /\ (filmFit camera <> "horizontal"%string -> translate_y = 0)
  /\ (filmFitOffset camera = 0 -> translate_x = 0 /\ translate_y = 0).
Proof.
  film_fit_cases camera; intros Hs;
    repeat match type of Hs with
      | context [py_lt ?a ?b] => destruct (py_lt a b)
      | context [py_div ?a ?b] =>
          destruct (py_div a b); cbn [bind] in Hs; [| discriminate Hs]
      | context [py_gt ?a ?b] => destruct (py_gt a b)
      end;
    injection Hs as <- <- <- <-;
    (split; [| split]); try (intros _; reflexivity); try (intros; split);
    try reflexivity; try congruence;
    match goal with H : filmFitOffset camera = 0 |- _ => rewrite H; lra end.
Qed.

(** X1: a returned frustum is centred on the film offset along every axis
    the film fit does not translate: horizontally unless the fit is
    vertical, vertically unless the fit is horizontal, and along both axes
    when [filmFitOffset] is 0.  The overscan never moves the centre. *)
Theorem frustum_centred_on_film_offset
  (camera : Camera) (window_aspect : R) (apply_overscan : bool)
  (l r b t : R) :
  compute_camera_viewing_frustum camera window_aspect apply_overscan
  = Ok (l, r, b, t) ->
  let focal_to_near :=
    nearClipPlane camera / (focalLength camera * mm_to_inch) * cameraScale camera in
  (filmFit camera <> "vertical"%string \/ filmFitOffset camera = 0 ->
   l + r = 2 * focal_to_near * horizontalFilmOffset camera)
  /\ (filmFit camera <> "horizontal"%string \/ filmFitOffset camera = 0 ->
      b + t = 2 * focal_to_near * verticalFilmOffset camera).
Proof.
  intros Hrun focal_to_near.
  destruct (compute_camera_viewing_frustum_inv _ _ _ _ _ _ _ Hrun)
    as (Hf & sx & sy & tx & ty & Hs & -> & -> & -> & ->).
  destruct (film_fit_scaling_translate _ _ _ _ _ _ Hs) as (Hx & Hy & Hz).
  fold focal_to_near. quotients. split; intros Hc.
  - assert (Htx : tx = 0) by (destruct Hc as [Hc | Hc]; [auto | now apply Hz]).
    rewrite Htx. field.
  - assert (Hty : ty = 0) by (destruct Hc as [Hc | Hc]; [auto | now apply Hz]).
    rewrite Hty. field.
Qed.

(** X2: applying the overscan multiplies the width and the height of the
    frustum by [overscan] and leaves its centre where it was. *)
Theorem overscan_scales_extent
  (camera : Camera) (window_aspect : R) (l r b t : R) :
  compute_camera_viewing_frustum camera window_aspect false = Ok (l, r, b, t) ->
  exists l' r' b' t' : R,
    compute_camera_viewing_frustum camera window_aspect true
    = Ok (l', r', b', t')
    /\ r' - l' = overscan camera * (r - l)
    /\ t' - b' = overscan camera * (t - b)
    /\ l' + r' = l + r
    /\ b' + t' = b + t.
Proof.
  intros Hrun.
  destruct (compute_camera_viewing_frustum_inv _ _ _ _ _ _ _ Hrun)
    as (Hf & sx & sy & tx & ty & Hs & -> & -> & -> & ->).
  do 4 eexists. split.
  - apply compute_camera_viewing_frustum_ok; [exact Hf | exact Hs].
  - set (f := nearClipPlane camera / (focalLength camera * mm_to_inch)
              * cameraScale camera).
    quotients. repeat split; field.
Qed.

Lemma frustum_centred_on_film_offset_witness :
  exists l r b t : R,
    compute_camera_viewing_frustum
      (with_film_offset (camera_2x1 "fill") 1 0) 2 true = Ok (l, r, b, t)
    /\ l + r = 2 * (1 / (35 * mm_to_inch) * 1) * 1.
Proof.
  pose proof mm_to_inch_pos as Hmm.
  assert (Hfocal : focalLength (with_film_offset (camera_2x1 "fill") 1 0) <> 0)
    by (simpl; lra).
  assert (Hscale : film_fit_scaling (with_film_offset (camera_2x1 "fill") 1 0) 2
                   = Ok (1, 1, 0, 0))
    by (apply fill_scaling_matching_aspect; [reflexivity | reflexivity | lra]).
  pose proof (compute_camera_viewing_frustum_ok _ 2 true _ _ _ _ Hfocal Hscale)
    as Hfr.
  cbv zeta in Hfr.
  do 4 eexists. split; [exact Hfr |].
  apply (proj1 (frustum_centred_on_film_offset _ _ _ _ _ _ _ Hfr)).
  left. discriminate.
Defined.

Lemma overscan_scales_extent_witness :
  exists l r b t l' r' b' t' : R,
    compute_camera_viewing_frustum
      (with_overscan (camera_2x1 "fill") 1.3) 2 false = Ok (l, r, b, t)
    /\ compute_camera_viewing_frustum
         (with_overscan (camera_2x1 "fill") 1.3) 2 true = Ok (l', r', b', t')
    /\ r' - l' = 1.3 * (r - l)
    /\ t' - b' = 1.3 * (t - b)
    /\ l' + r' = l + r
    /\ b' + t' = b + t.
Proof.
  pose proof mm_to_inch_pos as Hmm.
  assert (Hfocal : focalLength (with_overscan (camera_2x1 "fill") 1.3) <> 0)
    by (simpl; lra).
  assert (Hscale : film_fit_scaling (with_overscan (camera_2x1 "fill") 1.3) 2
                   = Ok (1, 1, 0, 0))
    by (apply fill_scaling_matching_aspect; [reflexivity | reflexivity | lra]).
  pose proof (compute_camera_viewing_frustum_ok _ 2 false _ _ _ _ Hfocal Hscale)
    as Hfr.
  cbv zeta in Hfr.
  destruct (overscan_scales_extent _ _ _ _ _ _ Hfr)
    as (l' & r' & b' & t' & Hrun & Hrest).
  do 4 eexists. exists l', r', b', t'.
  split; [exact Hfr |]. split; [exact Hrun | exact Hrest].
Defined.

(** The scales each film fit leaves, on positive aspects. *)
Lemma film_fit_scaling_scales
  (camera : Camera) (window_aspect scale_x scale_y translate_x translate_y : R) :
  film_fit_scaling camera window_aspect
  = Ok (scale_x, scale_y, translate_x, translate_y) ->
  (filmFit camera = "horizontal"%string ->
   scale_x = 1 /\ scale_y = aspectRatio camera / window_aspect)
  /\ (filmFit camera = "vertical"%string ->
      scale_x = window_aspect / aspectRatio camera /\ scale_y = 1)
  /\ (filmFit camera = "fill"%string ->
      0 < aspectRatio camera -> 0 < window_aspect ->
      0 < scale_x <= 1 /\ 0 < scale_y <= 1 /\ (scale_x = 1 \/ scale_y = 1))
  /\ (filmFit camera = "overscan"%string ->
      0 < aspectRatio camera -> 0 < window_aspect ->
      1 <= scale_x /\ 1 <= scale_y /\ (scale_x = 1 \/ scale_y = 1)).
Proof.
  assert (Hle1 : forall a c : R, 0 < c -> a <= c -> a / c <= 1).
  { intros a c Hc Hac. apply Rmult_le_reg_r with (r := c); [assumption |].
    unfold Rdiv. rewrite Rmult_assoc, Rinv_l by lra. lra. }
  assert (Hge1 : forall a c : R, 0 < c -> c <= a -> 1 <= a / c).
  { intros a c Hc Hac. apply Rmult_le_reg_r with (r := c); [assumption |].
    unfold Rdiv. rewrite Rmult_assoc, Rinv_l by lra. lra. }
  film_fit_cases camera; intros Hs;
    repeat split; intros; try congruence;
    repeat match type of Hs with
      | context [py_lt ?a ?b] => destruct (py_lt_spec a b)
      | context [py_gt ?a ?b] => destruct (py_gt a b)
      | context [py_div ?a ?b] =>
          let Hd := fresh "Hd" in
          destruct (Req_dec_T b 0) as [Hd | Hd];
          [rewrite Hd, py_div_zero in Hs; discriminate Hs
          | rewrite (py_div_ok a b Hd) in Hs; cbn [bind] in Hs]
      end;
    injection Hs as <- <- <- <-; try reflexivity; try lra;
    try (apply Rdiv_lt_0_compat; assumption);
    try (apply Hle1; lra); try (apply Hge1; lra);
    try (left; reflexivity); try (right; reflexivity).
Qed.

Lemma focal_to_near_pos (camera : Camera) :
  0 < focalLength camera -> 0 < nearClipPlane camera -> 0 < cameraScale camera ->
  0 < nearClipPlane camera / (focalLength camera * mm_to_inch)
      * cameraScale camera.
Proof.
  intros Hf Hn Hc. pose proof mm_to_inch_pos as Hmm.
  apply Rmult_lt_0_compat; [| assumption].
  apply Rdiv_lt_0_compat; [assumption | nra].
Qed.

(** X3: with the Fill fit the frustum never reaches outside the film gate
    (the rectangle of scales 1), and along one axis it coincides with it;
    with the Overscan fit the frustum always covers the film gate, and along
    one axis it coincides with it.  Both on a camera and a window of positive
    measures, the overscan not applied. *)
Theorem fill_inside_overscan_outside_film_gate
  (camera : Camera) (window_aspect : R) :
  0 < horizontalFilmAperture camera ->
  0 < verticalFilmAperture camera ->
  0 < focalLength camera ->
  0 < nearClipPlane camera ->
  0 < cameraScale camera ->
  0 < aspectRatio camera ->
  0 < window_aspect ->
  let focal_to_near :=
    nearClipPlane camera / (focalLength camera * mm_to_inch) * cameraScale camera in
  let gate_l :=
    focal_to_near * (-0.5 * horizontalFilmAperture camera + horizontalFilmOffset camera) in
  let gate_r :=
    focal_to_near * (0.5 * horizontalFilmAperture camera + horizontalFilmOffset camera) in
  let gate_b :=
    focal_to_near * (-0.5 * verticalFilmAperture camera + verticalFilmOffset camera) in
  let gate_t :=
    focal_to_near * (0.5 * verticalFilmAperture camera + verticalFilmOffset camera) in
  exists l r b t : R,
    compute_camera_viewing_frustum camera window_aspect false = Ok (l, r, b, t)
    /\ (filmFit camera = "fill"%string ->
        gate_l <= l /\ r <= gate_r /\ gate_b <= b /\ t <= gate_t
        /\ ((l = gate_l /\ r = gate_r) \/ (b = gate_b /\ t = gate_t)))
    /\ (filmFit camera = "overscan"%string ->
        l <= gate_l /\ gate_r <= r /\ b <= gate_b /\ gate_t <= t
        /\ ((l = gate_l /\ r = gate_r) \/ (b = gate_b /\ t = gate_t))).
Proof.
  intros Hx Hy Hf Hn Hc Hfa Hwa focal_to_near gate_l gate_r gate_b gate_t.
  pose proof (focal_to_near_pos camera Hf Hn Hc) as Hpos.
  fold focal_to_near in Hpos.
  destruct (film_fit_scaling_positive camera window_aspect Hfa Hwa)
    as (sx & sy & tx & ty & Hs & Hsx & Hsy).
  destruct (film_fit_scaling_scales _ _ _ _ _ _ Hs) as (_ & _ & Hfill & Hover).
  destruct (film_fit_scaling_translate _ _ _ _ _ _ Hs) as (Htx & Hty & _).
  assert (Hok := compute_camera_viewing_frustum_ok camera window_aspect false
                   sx sy tx ty (Rgt_not_eq _ _ Hf) Hs).
  cbv zeta in Hok. fold focal_to_near in Hok.
  do 4 eexists. split; [exact Hok |].
  unfold gate_l, gate_r, gate_b, gate_t.
  split; intros Hfit.
  - rewrite Htx, Hty by (rewrite Hfit; discriminate).
    destruct (Hfill Hfit Hfa Hwa) as (Hbx & Hby & Hone).
    repeat split; try (apply Rmult_le_compat_l; [lra | nra]).
    destruct Hone as [-> | ->]; [left | right]; split; f_equal; lra.
  - rewrite Htx, Hty by (rewrite Hfit; discriminate).
    destruct (Hover Hfit Hfa Hwa) as (Hbx & Hby & Hone).
    repeat split; try (apply Rmult_le_compat_l; [lra | nra]).
    destruct Hone as [-> | ->]; [left | right]; split; f_equal; lra.
Qed.

Lemma fill_inside_overscan_outside_film_gate_witness :
  exists l r b t : R,
    compute_camera_viewing_frustum (camera_2x1 "overscan") 1 false
    = Ok (l, r, b, t)
    /\ l <= 1 / (35 * mm_to_inch) * 1 * (-0.5 * 2 + 0)
    /\ 1 / (35 * mm_to_inch) * 1 * (0.5 * 2 + 0) <= r
    /\ b <= 1 / (35 * mm_to_inch) * 1 * (-0.5 * 1 + 0)
    /\ 1 / (35 * mm_to_inch) * 1 * (0.5 * 1 + 0) <= t.
Proof.
  destruct (fill_inside_overscan_outside_film_gate (camera_2x1 "overscan") 1)
    as (l & r & b & t & Hrun & _ & Hover); try (simpl; lra).
  exists l, r, b, t. split; [exact Hrun |].
  destruct (Hover eq_refl) as (H1 & H2 & H3 & H4 & _).
  repeat split; assumption.
Defined.

(** X4: the Horizontal fit keeps the full width of the film gate and the
    Vertical fit its full height, whatever the window aspect; the other
    dimension is the gate's times the quotient of the two aspects (overscan
    not applied). *)
Theorem fit_axis_keeps_film_gate_extent
  (camera : Camera) (window_aspect : R) (l r b t : R) :
  compute_camera_viewing_frustum camera window_aspect false = Ok (l, r, b, t) ->
  let focal_to_near :=
    nearClipPlane camera / (focalLength camera * mm_to_inch) * cameraScale camera in
  (filmFit camera = "horizontal"%string ->
   r - l = focal_to_near * horizontalFilmAperture camera
   /\ t - b = focal_to_near * verticalFilmAperture camera
              * (aspectRatio camera / window_aspect))
  /\ (filmFit camera = "vertical"%string ->
      t - b = focal_to_near * verticalFilmAperture camera
      /\ r - l = focal_to_near * horizontalFilmAperture camera
                 * (window_aspect / aspectRatio camera)).
Proof.
  intros Hrun focal_to_near.
  destruct (compute_camera_viewing_frustum_inv _ _ _ _ _ _ _ Hrun)
    as (Hf & sx & sy & tx & ty & Hs & -> & -> & -> & ->).
  destruct (film_fit_scaling_scales _ _ _ _ _ _ Hs) as (Hhor & Hver & _).
  fold focal_to_near. quotients.
  split; intros Hfit.
  - destruct (Hhor Hfit) as [-> ->]. split; field.
    intros Hz. unfold film_fit_scaling in Hs. rewrite Hfit, Hz in Hs. cbn in Hs.
    rewrite py_div_zero in Hs. discriminate.
  - destruct (Hver Hfit) as [-> ->]. split; field.
    intros Hz. unfold film_fit_scaling in Hs. rewrite Hfit, Hz in Hs. cbn in Hs.
    rewrite py_div_zero in Hs. discriminate.
Qed.

Lemma compute_camera_viewing_frustum_returns
  (camera : Camera) (window_aspect : R) (apply_overscan : bool) :
  focalLength camera <> 0 ->
  0 < aspectRatio camera ->
  0 < window_aspect ->
  exists l r b t : R,
    compute_camera_viewing_frustum camera window_aspect apply_overscan
    = Ok (l, r, b, t).
Proof.
  intros Hf Hfa Hwa.
  destruct (film_fit_scaling_positive camera window_aspect Hfa Hwa)
    as (sx & sy & tx & ty & Hs & _).
  do 4 eexists.
  apply compute_camera_viewing_frustum_ok; [exact Hf | exact Hs].
Qed.

Lemma fit_axis_keeps_film_gate_extent_witness :
  exists l r b t : R,
    compute_camera_viewing_frustum (camera_3x2 "horizontal") 1 false
    = Ok (l, r, b, t)
    /\ r - l = 0.1 / (35 * mm_to_inch) * 1 * 1.5
    /\ t - b = 0.1 / (35 * mm_to_inch) * 1 * 1 * (1.5 / 1).
Proof.
  destruct (compute_camera_viewing_frustum_returns
              (camera_3x2 "horizontal") 1 false)
    as (l & r & b & t & Hrun); try (simpl; lra).
  exists l, r, b, t. split; [exact Hrun |].
  apply (proj1 (fit_axis_keeps_film_gate_extent _ _ _ _ _ _ Hrun)).
  reflexivity.
Defined.

(** * Further properties of the field of view *)

(** Through a port of non-zero height, on a non-zero near clip and focal
    length, the two angles are
    [2 * atan (aperture * scale * cameraScale / (2 * focal_len_inch))]: the
    near clip plane, the film offsets and the film-fit translation cancel. *)
Lemma get_camera_port_field_of_view_closed
  (camera : Camera) (port_width port_height : R)
  (scale_x scale_y translate_x translate_y : R) :
  port_height <> 0 ->
  nearClipPlane camera <> 0 ->
  focalLength camera <> 0 ->
  film_fit_scaling camera (port_width / port_height)
  = Ok (scale_x, scale_y, translate_x, translate_y) ->
  get_camera_port_field_of_view camera port_width port_height
  = Ok (2 * atan (horizontalFilmAperture camera * scale_x * cameraScale camera
                  / (2 * (focalLength camera * mm_to_inch))),
        2 * atan (verticalFilmAperture camera * scale_y * cameraScale camera
                  / (2 * (focalLength camera * mm_to_inch)))).
Proof.
  intros Hh Hn Hf Hs. pose proof mm_to_inch_pos as Hmm.
  assert (Hfm : focalLength camera * mm_to_inch <> 0) by nra.
  erewrite get_camera_port_field_of_view_ok; [| exact Hh | exact Hn |].
  2: { apply compute_camera_viewing_frustum_ok; [exact Hf | exact Hs]. }
  quotients.
  f_equal. apply (f_equal2 pair); rewrite Rmult_comm; do 2 f_equal;
    field; repeat split; lra || assumption.
Qed.

(** The field of view fails exactly when the port height, the near clip, the
    focal length or the divisor of the film fit is zero. *)
Lemma get_camera_port_field_of_view_raise_iff
  (camera : Camera) (port_width port_height : R) :
  (exists e,
     get_camera_port_field_of_view camera port_width port_height = Raise e)
  <-> port_height = 0 \/ focalLength camera = 0
      \/ fit_divisor_is_zero camera (port_width / port_height)
      \/ nearClipPlane camera = 0.
Proof.
  destruct (Req_dec_T port_height 0) as [Hh | Hh].
  { split; [now left |]. intros _. exists ZeroDivisionError.
    unfold get_camera_port_field_of_view. now rewrite Hh, py_div_zero. }
  destruct (compute_camera_viewing_frustum camera (port_width / port_height)
              false) as [[[[l r] b] t] | e] eqn:Hfr.
  - destruct (compute_camera_viewing_frustum_inv _ _ _ _ _ _ _ Hfr)
      as (Hf & sx & sy & tx & ty & Hs & _).
    assert (Hnd : ~ fit_divisor_is_zero camera (port_width / port_height)).
    { intros Hd. apply film_fit_scaling_raise_iff in Hd.
      destruct Hd as [e He]. congruence. }
    destruct (Req_dec_T (nearClipPlane camera) 0) as [Hn | Hn].
    + split; [intros _; now do 3 right |]. intros _.
      exists ZeroDivisionError. unfold get_camera_port_field_of_view.
      rewrite py_div_ok by assumption. cbn [bind]. rewrite Hfr. cbn [bind].
      now rewrite Hn, py_div_zero.
    + rewrite (get_camera_port_field_of_view_ok _ _ _ _ _ _ _ Hh Hn Hfr).
      split; [intros [e He]; discriminate | tauto].
  - assert (Hcause : focalLength camera = 0
                     \/ fit_divisor_is_zero camera (port_width / port_height))
      by (apply (compute_camera_viewing_frustum_raise_iff camera _ false);
          now exists e).
    split; [intros _; tauto |]. intros _. exists e.
    unfold get_camera_port_field_of_view.
    rewrite py_div_ok by assumption. cbn [bind]. now rewrite Hfr.
Qed.

(** X5: [get_camera_port_field_of_view] fails, with [ZeroDivisionError],
    exactly when the port height, the focal length, the aspect the film fit
    divides by, or the near clip plane is zero; in every other case it
    returns the two angles. *)
Theorem port_field_of_view_fails_iff
  (camera : Camera) (port_width port_height : R) :
  ((exists e,
      get_camera_port_field_of_view camera port_width port_height = Raise e)
   <-> port_height = 0 \/ focalLength camera = 0
       \/ fit_divisor_is_zero camera (port_width / port_height)
       \/ nearClipPlane camera = 0)
  /\ ((exists horizontal vertical : R,
         get_camera_port_field_of_view camera port_width port_height
         = Ok (horizontal, vertical))
      <-> port_height <> 0 /\ focalLength camera <> 0
          /\ ~ fit_divisor_is_zero camera (port_width / port_height)
          /\ nearClipPlane camera <> 0).
Proof.
  pose proof (get_camera_port_field_of_view_raise_iff
                camera port_width port_height) as Hiff.
  split; [exact Hiff |].
  destruct (get_camera_port_field_of_view camera port_width port_height)
    as [[hf vf] | e].
  - split.
    + intros _.
      assert (Hno : ~ exists e : PyExn, Ok (hf, vf) = Raise e)
        by (intros [e He]; discriminate).
      rewrite Hiff in Hno. tauto.
    + intros _. now exists hf, vf.
  - split.
    + intros (hf & vf & H). discriminate.
    + intros (H1 & H2 & H3 & H4).
      assert (Hyes : exists e' : PyExn, @Raise (R * R) e = Raise e')
        by now exists e.
      rewrite Hiff in Hyes. tauto.
Qed.

(** Helper behind the two theorems below: a camera and a port of positive
    measures give two angles strictly between 0 and [PI]. *)
Lemma get_camera_port_field_of_view_positive
  (camera : Camera) (port_width port_height : R) :
  0 < horizontalFilmAperture camera ->
  0 < verticalFilmAperture camera ->
  0 < focalLength camera ->
  nearClipPlane camera <> 0 ->
  0 < cameraScale camera ->
  0 < aspectRatio camera ->
  0 < port_width ->
  0 < port_height ->
  exists horizontal vertical : R,
    get_camera_port_field_of_view camera port_width port_height
    = Ok (horizontal, vertical)
    /\ 0 < horizontal < PI /\ 0 < vertical < PI.
Proof.
  intros Hx Hy Hf Hn Hc Hfa Hw Hh. pose proof mm_to_inch_pos as Hmm.
  assert (Hwa : 0 < port_width / port_height)
    by (apply Rdiv_lt_0_compat; assumption).
  destruct (film_fit_scaling_positive camera _ Hfa Hwa)
    as (sx & sy & tx & ty & Hs & Hsx & Hsy).
  do 2 eexists. split.
  - apply (get_camera_port_field_of_view_closed camera _ _ sx sy tx ty);
      [lra | assumption | lra | exact Hs].
  - assert (Hpos : forall a s : R, 0 < a -> 0 < s ->
               0 < a * s * cameraScale camera
                   / (2 * (focalLength camera * mm_to_inch))).
    { intros a s Ha Hs'. apply Rdiv_lt_0_compat; [| nra].
      apply Rmult_lt_0_compat; [nra | assumption]. }
    pose proof (atan_pos _ (Hpos _ _ Hx Hsx)) as H1.
    pose proof (atan_pos _ (Hpos _ _ Hy Hsy)) as H2.
    pose proof (atan_bound (horizontalFilmAperture camera * sx
                            * cameraScale camera
                            / (2 * (focalLength camera * mm_to_inch)))) as B1.
    pose proof (atan_bound (verticalFilmAperture camera * sy
                            * cameraScale camera
                            / (2 * (focalLength camera * mm_to_inch)))) as B2.
    lra.
Qed.

(** X7: on a camera of positive apertures, focal length, camera scale and
    film aspect and a non-zero near clip, the field of view through a port of
    positive width and height is returned, and both angles lie strictly
    between 0 and [PI]. *)
Theorem port_field_of_view_in_range
  (camera : Camera) (port_width port_height : R) :
  0 < horizontalFilmAperture camera ->
  0 < verticalFilmAperture camera ->
  0 < focalLength camera ->
  nearClipPlane camera <> 0 ->
  0 < cameraScale camera ->
  0 < aspectRatio camera ->
  0 < port_width ->
  0 < port_height ->
  exists horizontal vertical : R,
    get_camera_port_field_of_view camera port_width port_height
    = Ok (horizontal, vertical)
    /\ 0 < horizontal < PI /\ 0 < vertical < PI
    /\ (exists ratio : R,
          probe_fov_ratio camera port_width port_height = Ok ratio
          /\ ratio = horizontal / vertical /\ 0 < ratio).
Proof.
  intros Hx Hy Hf Hn Hc Hfa Hw Hh.
  destruct (get_camera_port_field_of_view_positive camera port_width
              port_height Hx Hy Hf Hn Hc Hfa Hw Hh)
    as (hf & vf & Hrun & Hhf & Hvf).
  exists hf, vf. repeat split; try lra; try exact Hrun.
  exists (hf / vf). repeat split.
  - apply probe_fov_ratio_ok; [exact Hrun | lra].
  - apply Rdiv_lt_0_compat; lra.
Qed.

Lemma port_field_of_view_in_range_witness :
  exists horizontal vertical : R,
    get_camera_port_field_of_view (camera_3x2 "overscan") 1920 1080
    = Ok (horizontal, vertical)
    /\ 0 < horizontal < PI /\ 0 < vertical < PI
    /\ (exists ratio : R,
          probe_fov_ratio (camera_3x2 "overscan") 1920 1080 = Ok ratio
          /\ ratio = horizontal / vertical /\ 0 < ratio).
Proof.
  apply (port_field_of_view_in_range (camera_3x2 "overscan") 1920 1080);
    simpl; lra.
Defined.

(** * Further properties of the camera resolution *)

Lemma py_int_nonneg (x : R) : 0 <= x -> (0 <= py_int x)%Z.
Proof.
  intros Hx. rewrite py_int_floor by assumption.
  destruct (base_Int_part x) as [_ Hhi].
  assert (Hlt : IZR (-1) < IZR (Int_part x)) by lra.
  apply lt_IZR in Hlt. lia.
Qed.

(** A probe that returned, on a camera of positive measures: the height was
    not zero and the ratio is positive. *)
Lemma probe_fov_ratio_inv (camera : Camera) (w h ratio : R) :
  positive_camera camera ->
  0 < w -> 0 <= h ->
  probe_fov_ratio camera w h = Ok ratio ->
  0 < ratio /\ 0 < h.
Proof.
  intros (Hx & Hy & Hf & Hn & Hc & Hfa) Hw Hh Hrun.
  destruct (Req_dec_T h 0) as [Hz | Hz].
  { unfold probe_fov_ratio, get_camera_port_field_of_view in Hrun.
    rewrite Hz, py_div_zero in Hrun. discriminate. }
  assert (Hhpos : 0 < h) by lra.
  destruct (get_camera_port_field_of_view_positive camera w h
              Hx Hy Hf Hn Hc Hfa Hw Hhpos) as (hf & vf & Hfov & Hhf & Hvf).
  rewrite (probe_fov_ratio_ok camera w h hf vf Hfov) in Hrun by lra.
  injection Hrun as <-. split; [apply Rdiv_lt_0_compat; lra | assumption].
Qed.

(** X8: on a camera of positive measures and a positive starting resolution,
    whatever [get_camera_resolution_fov_ratio] returns has a positive
    [fov_ratio], a positive height and a width that is not negative; so the
    division of [get_camera_field_of_view] never fails after it, and the
    field of view is the nominal one over that ratio. *)
Theorem field_of_view_ratio_positive
  (rg : RenderGlobals) (camera : Camera) (render_w render_h : Z)
  (camera_w camera_h : Z) (fov_ratio : R) :
  positive_camera camera ->
  camera_start_resolution (get_render_image_resolution rg)
    = (render_w, render_h) ->
  (0 < render_w)%Z -> (0 < render_h)%Z ->
  get_camera_resolution_fov_ratio rg camera
    = Ok (camera_w, camera_h, fov_ratio) ->
  0 < fov_ratio /\ (0 <= camera_w)%Z /\ (0 < camera_h)%Z
  /\ get_camera_field_of_view rg camera
     = Ok (horizontalFieldOfView camera / fov_ratio).
Proof.
  intros Hcam Hres Hw Hh Hrun.
  assert (Hpos : 0 < fov_ratio /\ (0 <= camera_w)%Z /\ (0 < camera_h)%Z).
  { pose proof Hcam as (Hx & Hy & _).
    pose proof (IZR_lt _ _ Hw) as HwR. pose proof (IZR_lt _ _ Hh) as HhR.
    assert (Hxy : 0 < horizontalFilmAperture camera / verticalFilmAperture camera)
      by (apply Rdiv_lt_0_compat; assumption).
    assert (Hyx : 0 < verticalFilmAperture camera / horizontalFilmAperture camera)
      by (apply Rdiv_lt_0_compat; assumption).
    assert (Hnw : 0 < IZR render_h
                      * (horizontalFilmAperture camera / verticalFilmAperture camera))
      by (apply Rmult_lt_0_compat; assumption).
    assert (Hnh : 0 < IZR render_w
                      * (verticalFilmAperture camera / horizontalFilmAperture camera))
      by (apply Rmult_lt_0_compat; assumption).
    pose proof (py_int_nonneg _ (Rlt_le _ _ Hnw)) as Hinw.
    pose proof (py_int_nonneg _ (Rlt_le _ _ Hnh)) as Hinh.
    pose proof (IZR_le _ _ Hinh) as HinhR.
    unfold get_camera_resolution_fov_ratio, will_render_ignore_film_gate in Hrun.
    rewrite Hres in Hrun. cbn zeta in Hrun.
    rewrite !div_by_ratio_ok in Hrun by lra. cbn [bind] in Hrun.
    destruct (filmFit camera =? "horizontal")%string.
    { destruct (ignoreFilmGate rg); cbn in Hrun;
        [| destruct (py_lt _ (IZR render_h)); cbn in Hrun];
        (destruct (probe_fov_ratio camera _ _) as [ratio |] eqn:Hp;
         [| discriminate]);
        cbn in Hrun; injection Hrun as <- <- <-;
        apply (probe_fov_ratio_inv camera _ _ _ Hcam) in Hp; try lra;
        destruct Hp as [Hr Hhp]; try apply lt_IZR in Hhp; repeat split;
        assumption || lia. }
    destruct (filmFit camera =? "vertical")%string.
    { destruct (py_lt _ (IZR render_w)); destruct (ignoreFilmGate rg);
        cbn in Hrun;
        try (destruct (probe_fov_ratio camera _ _) as [ratio |] eqn:Hp;
             [| discriminate];
             cbn in Hrun;
             apply (probe_fov_ratio_inv camera _ _ _ Hcam) in Hp; try lra;
             destruct Hp as [Hr Hhp]);
        injection Hrun as <- <- <-; repeat split; lra || lia. }
    destruct (filmFit camera =? "overscan")%string.
    { destruct (py_lt _ (IZR render_w)); destruct (ignoreFilmGate rg);
        cbn in Hrun;
        try (destruct (probe_fov_ratio camera _ _) as [ratio |] eqn:Hp;
             [| discriminate];
             cbn in Hrun;
             apply (probe_fov_ratio_inv camera _ _ _ Hcam) in Hp; try lra;
             destruct Hp as [Hr Hhp]; try apply lt_IZR in Hhp);
        injection Hrun as <- <- <-; repeat split; lra || lia. }
    destruct (filmFit camera =? "fill")%string.
    { destruct (py_ge _ (IZR render_w));
        (destruct (probe_fov_ratio camera _ _) as [ratio |] eqn:Hp;
         [| discriminate]);
        cbn in Hrun; injection Hrun as <- <- <-;
        apply (probe_fov_ratio_inv camera _ _ _ Hcam) in Hp; try lra;
        destruct Hp as [Hr Hhp]; repeat split; assumption || lia. }
    injection Hrun as <- <- <-. repeat split; lra || lia. }
  destruct Hpos as (Hr & Hcw & Hch). repeat split; try assumption.
  unfold get_camera_field_of_view. rewrite Hrun. cbn.
  apply py_div_ok. lra.
Qed.

Lemma field_of_view_ratio_positive_witness :
  0 < 1 /\ (0 <= 1620)%Z /\ (0 < 1080)%Z
  /\ get_camera_field_of_view
       (render_globals 1920 1080 false) (camera_3x2 "vertical")
     = Ok (1 / 1).
Proof.
  apply (field_of_view_ratio_positive
           (render_globals 1920 1080 false) (camera_3x2 "vertical")
           1920%Z 1080%Z 1620%Z 1080%Z 1).
  - unfold positive_camera. simpl. repeat split; lra.
  - reflexivity.
  - reflexivity.
  - reflexivity.
  - exact vertical_example_1620.
Defined.

(** X9: what a returned camera resolution can differ in from the starting
    one.  With the film gate ignored it is the starting resolution, and then
    [is_point_clipped] clips no point at all; the Horizontal fit never
    changes the width, the Vertical fit never changes the height, the
    Overscan fit changes at most one of the two, and the Fill fit and a film
    fit that is none of the four change neither. *)
Theorem crop_only_along_fit_axis
  (rg : RenderGlobals) (camera : Camera) (render_w render_h : Z)
  (camera_w camera_h : Z) (fov_ratio : R) :
  camera_start_resolution (get_render_image_resolution rg)
    = (render_w, render_h) ->
  get_camera_resolution_fov_ratio rg camera
    = Ok (camera_w, camera_h, fov_ratio) ->
  (ignoreFilmGate rg = true ->
   (camera_w, camera_h) = (render_w, render_h)
   /\ forall (py : PyVersion) (x y : Q),
        is_point_clipped py x y (render_w, render_h) (camera_w, camera_h)
        = false)
  /\ (filmFit camera = "horizontal"%string -> camera_w = render_w)
  /\ (filmFit camera = "vertical"%string -> camera_h = render_h)
  /\ (filmFit camera = "overscan"%string ->
      camera_w = render_w \/ camera_h = render_h)
  /\ (filmFit camera <> "horizontal"%string ->
      filmFit camera <> "vertical"%string ->
      filmFit camera <> "overscan"%string ->
      (camera_w, camera_h) = (render_w, render_h)).
Proof.
  intros Hres Hrun.
  assert (Hsame : forall (py : PyVersion) (x y : Q),
             is_point_clipped py x y (render_w, render_h) (render_w, render_h)
             = false).
  { intros py x y. unfold is_point_clipped. cbn [fst snd].
    now rewrite !Z.eqb_refl. }
  unfold get_camera_resolution_fov_ratio, will_render_ignore_film_gate in Hrun.
  rewrite Hres in Hrun. cbn zeta in Hrun.
  destruct (String.eqb_spec (filmFit camera) "horizontal") as [Hhor | Hhor].
  { destruct (ignoreFilmGate rg); cbn in Hrun;
      [| destruct (div_by_ratio _ _ _) as [new_height |]; [| discriminate];
         cbn in Hrun; destruct (py_lt new_height (IZR render_h)); cbn in Hrun];
      (destruct (probe_fov_ratio camera _ _); [| discriminate]);
      cbn in Hrun; injection Hrun as <- <- _;
      repeat split; intros; try reflexivity; try apply Hsame;
      try discriminate; try congruence; auto. }
  destruct (String.eqb_spec (filmFit camera) "vertical") as [Hver | Hver].
  { destruct (div_by_ratio _ _ _) as [new_width |]; [| discriminate].
    cbn in Hrun.
    destruct (py_lt new_width (IZR render_w)); destruct (ignoreFilmGate rg);
      cbn in Hrun;
      try (destruct (probe_fov_ratio camera _ _); [| discriminate];
           cbn in Hrun);
      injection Hrun as <- <- _;
      repeat split; intros; try reflexivity; try apply Hsame;
      try discriminate; try congruence; auto. }
  destruct (String.eqb_spec (filmFit camera) "overscan") as [Hover | Hover].
  { destruct (div_by_ratio (IZR render_w) _ _) as [new_height |];
      [| discriminate].
    cbn in Hrun.
    destruct (div_by_ratio (IZR render_h) _ _) as [new_width |];
      [| discriminate].
    cbn in Hrun.
    destruct (py_lt new_width (IZR render_w)); destruct (ignoreFilmGate rg);
      cbn in Hrun;
      try (destruct (probe_fov_ratio camera _ _); [| discriminate];
           cbn in Hrun);
      injection Hrun as <- <- _;
      repeat split; intros; try reflexivity; try apply Hsame;
      try discriminate; try congruence; auto. }
  assert (Hkeep : (camera_w, camera_h) = (render_w, render_h)).
  { destruct (filmFit camera =? "fill")%string.
    - destruct (div_by_ratio _ _ _) as [new_width |]; [| discriminate].
      cbn in Hrun.
      destruct (py_ge new_width (IZR render_w));
        (destruct (probe_fov_ratio camera _ _); [| discriminate]);
        cbn in Hrun; injection Hrun as <- <- _; reflexivity.
    - injection Hrun as <- <- _. reflexivity. }
  injection Hkeep as -> ->.
  repeat split; intros; try reflexivity; try apply Hsame; congruence.
Qed.

Lemma crop_only_along_fit_axis_witness :
  get_camera_resolution_fov_ratio
    (render_globals 1920 1080 false) (camera_3x2 "vertical")
  = Ok (1620%Z, 1080%Z, 1)
  /\ 1080%Z = 1080%Z.
Proof.
  split; [exact vertical_example_1620 |].
  apply (proj1 (proj2 (proj2
           (crop_only_along_fit_axis
              (render_globals 1920 1080 false) (camera_3x2 "vertical")
              1920%Z 1080%Z 1620%Z 1080%Z 1 eq_refl vertical_example_1620)))).
  reflexivity.
Defined.

Section HorizontalBinary64.
Import PrimFloat F64.
Local Open Scope f64_scope.

(** X10: the Horizontal fit in binary64, with [new_height] the rounded
    value of [float(cam_w) / (aperture_x / aperture_y)].  With the film gate
    ignored the starting resolution is probed and kept.  With the gate
    enforced, when [new_height < cam_h] the height becomes [int(new_height)]
    and, unlike the Vertical fit, the field of view is probed again at that
    cropped height; otherwise the starting resolution is probed and kept.
    When the cropped height is 0 the probe divides by [float(0)] and the
    call fails with [ZeroDivisionError]. *)
Theorem horizontal_gate_cases_binary64
  (atan : float -> float) (rg : RenderGlobals) (camera : Camera)
  (cam_w cam_h : Z) :
  filmFit camera = "horizontal"%string ->
  camera_start_resolution (get_render_image_resolution rg) = (cam_w, cam_h) ->
  (ignoreFilmGate rg = true ->
   get_camera_resolution_fov_ratio atan rg camera =
     ('(hfov, vfov) <-
        get_camera_port_field_of_view atan camera (PyInt cam_w) (PyInt cam_h) ;;
      fov_ratio <- py_div hfov vfov ;;
      Ok (cam_w, cam_h, fov_ratio)))
  /\ (ignoreFilmGate rg = false ->
      forall new_height : float,
        int_div_by_ratio cam_w
          (horizontalFilmAperture camera) (verticalFilmAperture camera)
          = Ok new_height ->
        (py_lt_int new_height cam_h = true ->
         get_camera_resolution_fov_ratio atan rg camera =
           (cam_height <- py_int new_height ;;
            '(hfov, vfov) <-
              get_camera_port_field_of_view atan camera
                (PyInt cam_w) (PyInt cam_height) ;;
            fov_ratio <- py_div hfov vfov ;;
            Ok (cam_w, cam_height, fov_ratio)))
        /\ (py_lt_int new_height cam_h = false ->
            get_camera_resolution_fov_ratio atan rg camera =
              ('(hfov, vfov) <-
                 get_camera_port_field_of_view atan camera
                   (PyInt cam_w) (PyInt cam_h) ;;
               fov_ratio <- py_div hfov vfov ;;
               Ok (cam_w, cam_h, fov_ratio)))
        /\ (py_lt_int new_height cam_h = true ->
            py_int new_height = Ok 0%Z ->
            get_camera_resolution_fov_ratio atan rg camera
            = Raise ZeroDivisionError)).
Proof.
  intros Hfit Hres.
  unfold get_camera_resolution_fov_ratio, will_render_ignore_film_gate.
  rewrite Hres, Hfit. cbn [String.eqb Ascii.eqb Bool.eqb].
  unfold probe_fov_ratio.
  split.
  - intros Hgate. rewrite Hgate. cbn [negb bind].
    destruct (get_camera_port_field_of_view atan camera _ _)
      as [[hfov vfov] | e]; reflexivity.
  - intros Hgate new_height Hnh. rewrite Hgate, Hnh. cbn [negb bind].
    split; [| split].
    + intros Hlt. rewrite Hlt.
      destruct (py_int new_height) as [cam_height | e]; [| reflexivity].
      cbn [bind].
      destruct (get_camera_port_field_of_view atan camera _ _)
        as [[hfov vfov] | e]; reflexivity.
    + intros Hge. rewrite Hge. cbn [bind].
      destruct (get_camera_port_field_of_view atan camera _ _)
        as [[hfov vfov] | e]; reflexivity.
    + intros Hlt Hzero. rewrite Hlt, Hzero. cbn [bind].
      destruct (int_div_by_ratio_inv _ _ _ _ Hnh) as (width & Hw & _).
      unfold get_camera_port_field_of_view, py_float. rewrite Hw.
      reflexivity.
Qed.

Lemma horizontal_gate_cases_binary64_witness :
  int_div_by_ratio 720 24 17 = Ok 0x1.fdfffffffffffp+8%float
  /\ py_lt_int 0x1.fdfffffffffffp+8 576 = true
  /\ py_int 0x1.fdfffffffffffp+8 = Ok 509%Z
  /\ (forall atan : float -> float,
        get_camera_resolution_fov_ratio atan
          (render_globals 720 576 false) (sample_camera 24 17 "horizontal")
        = (cam_height <- py_int 0x1.fdfffffffffffp+8 ;;
           '(hfov, vfov) <-
             get_camera_port_field_of_view atan
               (sample_camera 24 17 "horizontal")
               (PyInt 720) (PyInt cam_height) ;;
           fov_ratio <- py_div hfov vfov ;;
           Ok (720%Z, cam_height, fov_ratio)))
  /\ py_int 0.5 = Ok 0%Z
  /\ (forall atan : float -> float,
        get_camera_resolution_fov_ratio atan
          (render_globals 1 240 false) (sample_camera 2 1 "horizontal")
        = Raise ZeroDivisionError).
Proof.
  assert (Hnh : int_div_by_ratio 720 24 17 = Ok 0x1.fdfffffffffffp+8%float)
    by (vm_compute; reflexivity).
  assert (Hlt : py_lt_int 0x1.fdfffffffffffp+8 576 = true)
    by (vm_compute; reflexivity).
  split; [exact Hnh |]. split; [exact Hlt |].
  split; [vm_compute; reflexivity |].
  split; [| split; [vm_compute; reflexivity |]].
  - intros atan.
    apply (proj1 (proj2
             (horizontal_gate_cases_binary64 atan
                (render_globals 720 576 false)
                (sample_camera 24 17 "horizontal")
                720%Z 576%Z eq_refl eq_refl)
             eq_refl _ Hnh) Hlt).
  - intros atan.
    apply (proj2 (proj2 (proj2
             (horizontal_gate_cases_binary64 atan
                (render_globals 1 240 false) (sample_camera 2 1 "horizontal")
                1%Z 240%Z eq_refl eq_refl)
             eq_refl 0.5%float ltac:(vm_compute; reflexivity))));
      vm_compute; reflexivity.
Defined.

End HorizontalBinary64.

Lemma div_by_ratio_zero (n a b : R) :
  a = 0 \/ b = 0 -> div_by_ratio n a b = Raise ZeroDivisionError.
Proof.
  intros Hz. unfold div_by_ratio.
  destruct (Req_dec_T b 0) as [Hb | Hb].
  - now rewrite Hb, py_div_zero.
  - destruct Hz as [Ha | Hb']; [| contradiction].
    rewrite py_div_ok by assumption. cbn [bind].
    rewrite Ha. unfold Rdiv at 1. now rewrite Rmult_0_l, py_div_zero.
Qed.

(** X11: a zero film aperture, horizontal or vertical, makes
    [get_camera_resolution_fov_ratio] fail with [ZeroDivisionError] in the
    Vertical, Overscan and Fill fits, and in the Horizontal fit when the film
    gate is enforced: each of them starts by dividing by the aperture
    ratio. *)
Theorem zero_aperture_raises (rg : RenderGlobals) (camera : Camera) :
  horizontalFilmAperture camera = 0 \/ verticalFilmAperture camera = 0 ->
  filmFit camera = "vertical"%string
  \/ filmFit camera = "overscan"%string
  \/ filmFit camera = "fill"%string
  \/ (filmFit camera = "horizontal"%string /\ ignoreFilmGate rg = false) ->
  get_camera_resolution_fov_ratio rg camera = Raise ZeroDivisionError.
Proof.
  intros Hz Hfit.
  assert (Hz' : verticalFilmAperture camera = 0
                \/ horizontalFilmAperture camera = 0) by tauto.
  unfold get_camera_resolution_fov_ratio, will_render_ignore_film_gate.
  destruct (camera_start_resolution (get_render_image_resolution rg))
    as [cam_w cam_h].
  destruct Hfit as [Hfit | [Hfit | [Hfit | [Hfit Hgate]]]]; rewrite Hfit; cbn.
  - now rewrite (div_by_ratio_zero _ _ _ Hz').
  - now rewrite (div_by_ratio_zero _ _ _ Hz).
  - now rewrite (div_by_ratio_zero _ _ _ Hz').
  - rewrite Hgate. cbn. now rewrite (div_by_ratio_zero _ _ _ Hz).
Qed.

Lemma zero_aperture_raises_witness :
  get_camera_resolution_fov_ratio
    (render_globals 1920 1080 true) camera_out_of_range_fill
  = Raise ZeroDivisionError.
Proof.
  apply (zero_aperture_raises
           (render_globals 1920 1080 true) camera_out_of_range_fill).
  - right. reflexivity.
  - right. right. left. reflexivity.
Defined.

Lemma probe_fov_ratio_returns (camera : Camera) (w h : R) :
  positive_camera camera -> 0 < w -> 0 < h ->
  exists ratio : R, probe_fov_ratio camera w h = Ok ratio.
Proof.
  intros (Hx & Hy & Hf & Hn & Hc & Hfa) Hw Hh.
  destruct (get_camera_port_field_of_view_positive camera w h
              Hx Hy Hf Hn Hc Hfa Hw Hh) as (hf & vf & Hfov & Hhf & Hvf).
  exists (hf / vf). apply probe_fov_ratio_ok; [exact Hfov | lra].
Qed.

Lemma py_int_pos (x : R) : 1 <= x -> (0 < py_int x)%Z.
Proof.
  intros Hx. rewrite py_int_floor by lra.
  destruct (base_Int_part x) as [_ Hhi].
  assert (Hlt : IZR 0 < IZR (Int_part x)) by lra.
  now apply lt_IZR in Hlt.
Qed.

(** X12: on a camera of positive measures and a positive starting
    resolution, [get_camera_resolution_fov_ratio] returns a result (it does
    not fail) whenever the film gate is ignored, or the fit is Vertical or
    Fill or none of the four, or the cropped height
    [cam_w * (aperture_y / aperture_x)] is at least one pixel. *)
Theorem resolution_fov_ratio_returns
  (rg : RenderGlobals) (camera : Camera) (cam_w cam_h : Z) :
  positive_camera camera ->
  camera_start_resolution (get_render_image_resolution rg) = (cam_w, cam_h) ->
  (0 < cam_w)%Z -> (0 < cam_h)%Z ->
  ignoreFilmGate rg = true
  \/ filmFit camera = "vertical"%string
  \/ filmFit camera = "fill"%string
  \/ ~ known_film_fit (filmFit camera)
  \/ 1 <= IZR cam_w
          * (verticalFilmAperture camera / horizontalFilmAperture camera) ->
  exists (camera_w camera_h : Z) (fov_ratio : R),
    get_camera_resolution_fov_ratio rg camera
    = Ok (camera_w, camera_h, fov_ratio).
Proof.
  intros Hcam Hres Hw Hh Hcase.
  pose proof Hcam as (Hx & Hy & _).
  pose proof (IZR_lt _ _ Hw) as HwR. pose proof (IZR_lt _ _ Hh) as HhR.
  assert (Hxy : 0 < horizontalFilmAperture camera / verticalFilmAperture camera)
    by (apply Rdiv_lt_0_compat; assumption).
  assert (Hnw : 0 < IZR cam_h
                    * (horizontalFilmAperture camera / verticalFilmAperture camera))
    by (apply Rmult_lt_0_compat; assumption).
  assert (Hprobe : forall w h : R, 0 < w -> 0 < h ->
             exists camera_w camera_h fov_ratio,
               (fov_ratio <- probe_fov_ratio camera w h ;;
                Ok (cam_w, py_int h, fov_ratio))
               = Ok (camera_w, camera_h, fov_ratio)).
  { intros w h Hwp Hhp.
    destruct (probe_fov_ratio_returns camera w h Hcam Hwp Hhp) as [ratio Hp].
    rewrite Hp. cbn. now do 3 eexists. }
  assert (Hprobe' : forall w : R, 0 < w ->
             exists camera_w camera_h fov_ratio,
               (fov_ratio <- probe_fov_ratio camera w (IZR cam_h) ;;
                Ok (cam_w, cam_h, fov_ratio))
               = Ok (camera_w, camera_h, fov_ratio)).
  { intros w Hwp. destruct (Hprobe w (IZR cam_h) Hwp HhR) as (a & b & c & H).
    rewrite py_int_IZR in H. eauto. }
  assert (Hcrop : 1 <= IZR cam_w
                       * (verticalFilmAperture camera / horizontalFilmAperture camera) ->
             exists camera_w camera_h fov_ratio,
               (fov_ratio <-
                  probe_fov_ratio camera (IZR cam_w)
                    (IZR (py_int (IZR cam_w
                       * (verticalFilmAperture camera
                          / horizontalFilmAperture camera)))) ;;
                Ok (cam_w,
                    py_int (IZR cam_w
                       * (verticalFilmAperture camera
                          / horizontalFilmAperture camera)), fov_ratio))
               = Ok (camera_w, camera_h, fov_ratio)).
  { intros Hone. pose proof (py_int_pos _ Hone) as Hip. apply IZR_lt in Hip.
    destruct (Hprobe (IZR cam_w) _ HwR Hip) as (a & b & c & H).
    rewrite py_int_IZR in H. eauto. }
  unfold get_camera_resolution_fov_ratio, will_render_ignore_film_gate.
  rewrite Hres. cbn zeta.
  rewrite !div_by_ratio_ok by lra. cbn [bind].
  unfold known_film_fit in Hcase.
  destruct (String.eqb_spec (filmFit camera) "horizontal") as [Hhor | Hhor].
  { destruct (ignoreFilmGate rg); cbn; [now apply Hprobe' |].
    destruct (py_lt _ (IZR cam_h)); cbn [bind]; [| now apply Hprobe'].
    apply Hcrop.
    destruct Hcase as [H | [H | [H | [H | H]]]];
      [discriminate | congruence | congruence | tauto | exact H]. }
  destruct (String.eqb_spec (filmFit camera) "vertical") as [Hver | Hver].
  { destruct (py_lt _ (IZR cam_w)); destruct (ignoreFilmGate rg); cbn;
      try (now apply Hprobe'); now do 3 eexists. }
  destruct (String.eqb_spec (filmFit camera) "overscan") as [Hover | Hover].
  { destruct (py_lt _ (IZR cam_w)); destruct (ignoreFilmGate rg); cbn;
      try (now apply Hprobe'); try (now do 3 eexists).
    apply Hcrop.
    destruct Hcase as [H | [H | [H | [H | H]]]];
      [discriminate | congruence | congruence | tauto | exact H]. }
  destruct (filmFit camera =? "fill")%string.
  { destruct (py_ge _ (IZR cam_w)); now apply Hprobe'. }
  now do 3 eexists.
Qed.

Lemma resolution_fov_ratio_returns_witness :
  exists (camera_w camera_h : Z) (fov_ratio : R),
    get_camera_resolution_fov_ratio
      (render_globals 1920 1080 true) (camera_3x2 "overscan")
    = Ok (camera_w, camera_h, fov_ratio).
Proof.
  apply (resolution_fov_ratio_returns
           (render_globals 1920 1080 true) (camera_3x2 "overscan")
           1920%Z 1080%Z).
  - unfold positive_camera. simpl. repeat split; lra.
  - reflexivity.
  - reflexivity.
  - reflexivity.
  - left. reflexivity.
Defined.

(** * Further properties of the clip test *)

(** One axis of the clip test, as a boolean. *)
Lemma is_point_clipped_axes
  (py : PyVersion) (x y : Q) (render_w render_h camera_w camera_h : Z) :
  is_point_clipped py x y (render_w, render_h) (camera_w, camera_h)
  = (negb (render_h =? camera_h)%Z
     && (Qlt_bool y (int_div_2 py (render_h - camera_h))
         || Qle_bool (inject_Z render_h - int_div_2 py (render_h - camera_h)) y))
    || (negb (render_w =? camera_w)%Z
        && (Qlt_bool x (int_div_2 py (render_w - camera_w))
            || Qle_bool (inject_Z render_w - int_div_2 py (render_w - camera_w)) x)).
Proof.
  unfold is_point_clipped. cbn [fst snd].
  destruct (negb (render_h =? camera_h)%Z);
    destruct (negb (render_w =? camera_w)%Z);
    destruct (Qlt_bool y _ || Qle_bool _ y);
    destruct (Qlt_bool x _ || Qle_bool _ x);
    reflexivity.
Qed.

(** The margin is at most half the difference, and misses it by less than
    one. *)
Lemma int_div_2_bounds (py : PyVersion) (n : Z) :
  (int_div_2 py n <= n # 2)%Q /\ ((n # 2) - 1 < int_div_2 py n)%Q.
Proof.
  destruct py; unfold int_div_2, Qle, Qlt, Qminus, Qplus, Qopp, inject_Z; cbn;
    Z.div_mod_to_equations; lia.
Qed.

(** X13: the midpoint of the render resolution is never clipped by a camera
    resolution of positive width and height, whatever the render
    resolution. *)
Theorem render_midpoint_not_clipped
  (py : PyVersion) (render_w render_h camera_w camera_h : Z) :
  (0 < camera_w)%Z -> (0 < camera_h)%Z ->
  is_point_clipped py (render_w # 2) (render_h # 2)
    (render_w, render_h) (camera_w, camera_h) = false.
Proof.
  intros Hw Hh.
  assert (Haxis : forall render camera : Z,
             (0 < camera)%Z ->
             Qlt_bool (render # 2) (int_div_2 py (render - camera))
             || Qle_bool (inject_Z render - int_div_2 py (render - camera))
                  (render # 2) = false).
  { intros render camera Hc.
    destruct (int_div_2_bounds py (render - camera)) as [Hle Hgt].
    apply orb_false_iff. split; apply not_true_is_false; intros Hb.
    - apply Qlt_bool_iff in Hb.
      assert (Hlt : (render # 2 < (render - camera) # 2)%Q)
        by (eapply Qlt_le_trans; eassumption).
      unfold Qlt in Hlt. cbn in Hlt. lia.
    - apply Qle_bool_iff in Hb.
      assert (Hlt : (inject_Z render - ((render - camera) # 2) <= render # 2)%Q).
      { eapply Qle_trans; [| exact Hb].
        apply Qplus_le_r. now apply Qopp_le_compat. }
      unfold Qle, Qminus, Qplus, Qopp, inject_Z in Hlt. cbn in Hlt. lia. }
  rewrite is_point_clipped_axes, !Haxis by assumption.
  now rewrite !andb_false_r.
Qed.

Lemma render_midpoint_not_clipped_witness :
  is_point_clipped Python2 (1920 # 2) (1080 # 2)
    (1920, 1080)%Z (1620, 1080)%Z = false.
Proof.
  apply (render_midpoint_not_clipped Python2 1920 1080 1620 1080); reflexivity.
Defined.

(** The width left between the two margins of an axis. *)
Lemma margin_band_width (py : PyVersion) (render camera : Z) :
  (inject_Z render - int_div_2 py (render - camera)
   == int_div_2 py (render - camera)
      + inject_Z (match py with
                  | Python2 => camera + (render - camera) mod 2
                  | Python3 => camera
                  end))%Q.
Proof.
  destruct py; unfold int_div_2, Qeq, Qminus, Qplus, Qopp, inject_Z; cbn;
    Z.div_mod_to_equations; lia.
Qed.

(** X14: along each axis where the two resolutions differ, the points
    [is_point_clipped] leaves unclipped are exactly those from the margin
    (included) up to the margin plus a band (excluded); the band is as wide
    as the camera resolution under Python 3, and under Python 2 one pixel
    wider when the difference of the two sizes is odd. *)
Theorem unclipped_points_form_band
  (py : PyVersion) (x y : Q) (render_w render_h camera_w camera_h : Z) :
  let band render camera :=
    inject_Z (match py with
              | Python2 => camera + (render - camera) mod 2
              | Python3 => camera
              end) in
  let margin_x := int_div_2 py (render_w - camera_w) in
  let margin_y := int_div_2 py (render_h - camera_h) in
  is_point_clipped py x y (render_w, render_h) (camera_w, camera_h) = false
  <-> (render_h = camera_h
       \/ (margin_y <= y /\ y < margin_y + band render_h camera_h)%Q)
      /\ (render_w = camera_w
          \/ (margin_x <= x /\ x < margin_x + band render_w camera_w)%Q).
Proof.
  intros band margin_x margin_y.
  assert (Haxis : forall (p : Q) (render camera : Z),
             negb (render =? camera)%Z
             && (Qlt_bool p (int_div_2 py (render - camera))
                 || Qle_bool (inject_Z render - int_div_2 py (render - camera)) p)
             = false
             <-> render = camera
                 \/ (int_div_2 py (render - camera) <= p
                     /\ p < int_div_2 py (render - camera) + band render camera)%Q).
  { intros p render camera. unfold band.
    rewrite <- (margin_band_width py render camera).
    destruct (Z.eqb_spec render camera) as [Heq | Hne]; cbn [negb andb].
    - split; [now left | reflexivity].
    - rewrite orb_false_iff, <- !not_true_iff_false, Qlt_bool_iff, Qle_bool_iff.
      split.
      + intros [Hlo Hhi]. right. split;
          [now apply Qnot_lt_le | now apply Qnot_le_lt].
      + intros [Heq | [Hlo Hhi]]; [contradiction |].
        split; [now apply Qle_not_lt | now apply Qlt_not_le]. }
  rewrite is_point_clipped_axes, orb_false_iff.
  unfold margin_x, margin_y.
  now rewrite (Haxis y render_h camera_h), (Haxis x render_w camera_w).
Qed.

(** X15: the two interpreters give the same verdict on every point when the
    width difference and the height difference of the two resolutions are
    even. *)
Theorem python_versions_agree_on_even_margins
  (x y : Q) (render_w render_h camera_w camera_h : Z) :
  Z.even (render_w - camera_w) = true ->
  Z.even (render_h - camera_h) = true ->
  is_point_clipped Python2 x y (render_w, render_h) (camera_w, camera_h)
  = is_point_clipped Python3 x y (render_w, render_h) (camera_w, camera_h).
Proof.
  intros Hw Hh.
  assert (Hm : forall n : Z, Z.even n = true ->
             (int_div_2 Python2 n == int_div_2 Python3 n)%Q).
  { intros n Hn. apply Z.even_spec in Hn. destruct Hn as [k Hk].
    unfold int_div_2, Qeq, inject_Z. cbn [Qnum Qden].
    Z.div_mod_to_equations. lia. }
  assert (Haxis : forall (p : Q) (render camera : Z),
             Z.even (render - camera) = true ->
             Qlt_bool p (int_div_2 Python2 (render - camera))
             || Qle_bool (inject_Z render - int_div_2 Python2 (render - camera)) p
             = Qlt_bool p (int_div_2 Python3 (render - camera))
               || Qle_bool (inject_Z render - int_div_2 Python3 (render - camera)) p).
  { intros p render camera He. specialize (Hm _ He).
    apply eq_iff_eq_true.
    rewrite !orb_true_iff, !Qlt_bool_iff, !Qle_bool_iff.
    now rewrite Hm. }
  rewrite !is_point_clipped_axes.
  now rewrite (Haxis y render_h camera_h Hh), (Haxis x render_w camera_w Hw).
Qed.

Lemma python_versions_agree_on_even_margins_witness :
  is_point_clipped Python2 100 100 (1920, 1080)%Z (1620, 1080)%Z
  = is_point_clipped Python3 100 100 (1920, 1080)%Z (1620, 1080)%Z.
Proof.
  apply (python_versions_agree_on_even_margins 100 100 1920 1080 1620 1080);
    reflexivity.
Defined.

(** * The film-fit offset *)

Lemma film_fit_scaling_horizontal (camera : Camera) (window_aspect : R) :
  filmFit camera = "horizontal"%string ->
  window_aspect <> 0 ->
  let scale_y := aspectRatio camera / window_aspect in
  film_fit_scaling camera window_aspect
  = Ok (1, scale_y, 0,
        if py_gt scale_y 1
        then filmFitOffset camera
             * (verticalFilmAperture camera
                - verticalFilmAperture camera * scale_y) / 2
        else 0).
Proof.
  intros Hfit Hwa scale_y. unfold film_fit_scaling. rewrite Hfit. cbn.
  rewrite py_div_ok by assumption. cbn [bind]. fold scale_y.
  destruct (py_gt scale_y 1); reflexivity.
Qed.

Lemma film_fit_scaling_vertical (camera : Camera) (window_aspect : R) :
  filmFit camera = "vertical"%string ->
  aspectRatio camera <> 0 ->
  let scale_x := window_aspect / aspectRatio camera in
  film_fit_scaling camera window_aspect
  = Ok (scale_x, 1,
        (if py_gt scale_x 1
         then filmFitOffset camera
              * (horizontalFilmAperture camera
                 - horizontalFilmAperture camera * scale_x) / 2
         else 0), 0).
Proof.
  intros Hfit Hfa scale_x. unfold film_fit_scaling. rewrite Hfit. cbn.
  rewrite py_div_ok by assumption. cbn [bind]. fold scale_x.
  destruct (py_gt scale_x 1); reflexivity.
Qed.

(** X16: what [filmFitOffset] does.  In the Horizontal fit, when the frustum
    is taller than the film gate ([aspect_ratio / window_aspect > 1]), an
    offset of 1 keeps the top side on the top of the film gate and an offset
    of -1 keeps the bottom side on its bottom; in the Vertical fit, when the
    frustum is wider than the film gate, an offset of 1 keeps the right side
    on the gate's right and -1 the left side on its left.  When the frustum
    is not larger than the gate the offset is not used and the frustum stays
    centred on the film offset. *)
Theorem film_fit_offset_pins_a_side
  (camera : Camera) (window_aspect : R) (l r b t : R) :
  compute_camera_viewing_frustum camera window_aspect false = Ok (l, r, b, t) ->
  let focal_to_near :=
    nearClipPlane camera / (focalLength camera * mm_to_inch) * cameraScale camera in
  let gate_l :=
    focal_to_near * (-0.5 * horizontalFilmAperture camera + horizontalFilmOffset camera) in
  let gate_r :=
    focal_to_near * (0.5 * horizontalFilmAperture camera + horizontalFilmOffset camera) in
  let gate_b :=
    focal_to_near * (-0.5 * verticalFilmAperture camera + verticalFilmOffset camera) in
  let gate_t :=
    focal_to_near * (0.5 * verticalFilmAperture camera + verticalFilmOffset camera) in
  (filmFit camera = "horizontal"%string ->
   (1 < aspectRatio camera / window_aspect ->
    (filmFitOffset camera = 1 -> t = gate_t)
    /\ (filmFitOffset camera = -1 -> b = gate_b))
   /\ (aspectRatio camera / window_aspect <= 1 ->
       b + t = 2 * focal_to_near * verticalFilmOffset camera))
  /\ (filmFit camera = "vertical"%string ->
      (1 < window_aspect / aspectRatio camera ->
       (filmFitOffset camera = 1 -> r = gate_r)
       /\ (filmFitOffset camera = -1 -> l = gate_l))
      /\ (window_aspect / aspectRatio camera <= 1 ->
          l + r = 2 * focal_to_near * horizontalFilmOffset camera)).
Proof.
  intros Hrun focal_to_near gate_l gate_r gate_b gate_t.
  destruct (compute_camera_viewing_frustum_inv _ _ _ _ _ _ _ Hrun)
    as (Hf & sx & sy & tx & ty & Hs & Hl & Hr & Hb & Ht).
  fold focal_to_near in Hl, Hr, Hb, Ht.
  unfold gate_l, gate_r, gate_b, gate_t. clear gate_l gate_r gate_b gate_t.
  clearbody focal_to_near.
  split; intros Hfit.
  - assert (Hwa : window_aspect <> 0).
    { intros Hz. unfold film_fit_scaling in Hs. rewrite Hfit, Hz in Hs.
      cbn in Hs. rewrite py_div_zero in Hs. discriminate. }
    rewrite (film_fit_scaling_horizontal camera window_aspect Hfit Hwa) in Hs.
    cbv zeta in Hs. injection Hs as <- <- <- <-.
    rewrite Hb, Ht. split; intros Hsc.
    + unfold py_gt. rewrite py_lt_true by assumption.
      split; intros ->; f_equal; lra.
    + unfold py_gt. rewrite py_lt_false by assumption. quotients. field; assumption.
  - assert (Hfa : aspectRatio camera <> 0).
    { intros Hz. unfold film_fit_scaling in Hs. rewrite Hfit, Hz in Hs.
      cbn in Hs. rewrite py_div_zero in Hs. discriminate. }
    rewrite (film_fit_scaling_vertical camera window_aspect Hfit Hfa) in Hs.
    cbv zeta in Hs. injection Hs as <- <- <- <-.
    rewrite Hl, Hr. split; intros Hsc.
    + unfold py_gt. rewrite py_lt_true by assumption.
      split; intros ->; f_equal; lra.
    + unfold py_gt. rewrite py_lt_false by assumption. quotients. field; assumption.
Qed.

Lemma film_fit_offset_pins_a_side_witness :
  exists l r b t : R,
    compute_camera_viewing_frustum (camera_3x2 "horizontal") 1 false
    = Ok (l, r, b, t)
    /\ t = 0.1 / (35 * mm_to_inch) * 1 * (0.5 * 1 + 0).
Proof.
  destruct (compute_camera_viewing_frustum_returns
              (camera_3x2 "horizontal") 1 false)
    as (l & r & b & t & Hrun); try (simpl; lra).
  exists l, r, b, t. split; [exact Hrun |].
  apply (proj1 (proj1 (film_fit_offset_pins_a_side _ _ _ _ _ _ Hrun) eq_refl)).
  - simpl. lra.
  - reflexivity.
Defined.
